(** * sandman2: application set-up (sandman2/app.py)

    A shallow embedding of the registration pipeline of [sandman2/app.py]:
    [get_app], [register_service], [_reflect_all], [register_model],
    [_register_user_models], [_register_view_models] and the [index] view.

    The Flask application object is a record holding the URL rules added
    with [add_url_rule], the list [app.classes], the views handed to the
    admin object and the configuration flag.  Code that can raise runs in a
    small state-and-exception monad over that record. *)

From stdpp Require Import gmap strings list.
From Stdlib Require Import Ascii String.

Open Scope string_scope.
Open Scope list_scope.

(** ** Python strings *)

Module PyStr.

(** [str.lower] on ASCII text: strings are byte strings here, the capitals
    A to Z are lowered and every other byte is left as it is.  It is
    [str.lower] for names written in ASCII. *)
Definition lower_ascii (c : ascii) : ascii :=
  let n := nat_of_ascii c in
  if (65 <=? n)%nat && (n <=? 90)%nat then ascii_of_nat (n + 32) else c.

Fixpoint lower (s : string) : string :=
  match s with
  | EmptyString => EmptyString
  | String c s' => String (lower_ascii c) (lower s')
  end.

(** [s.split(sep)] for a one-character separator: never an empty list. *)
Fixpoint split (sep : ascii) (s : string) : list string :=
  match s with
  | EmptyString => [EmptyString]
  | String c s' =>
      if Ascii.eqb c sep then EmptyString :: split sep s'
      else match split sep s' with
           | [] => [String c EmptyString]
           | w :: ws => String c w :: ws
           end
  end.

(** [sep.join(parts)], the inverse direction, used to write view specs. *)
Fixpoint join (sep : ascii) (parts : list string) : string :=
  match parts with
  | [] => EmptyString
  | [w] => w
  | w :: ws => w +:+ String sep (join sep ws)
  end.

Fixpoint contains (sep : ascii) (s : string) : bool :=
  match s with
  | EmptyString => false
  | String c s' => Ascii.eqb c sep || contains sep s'
  end.

Definition is_alpha (c : ascii) : bool :=
  let n := nat_of_ascii c in
  ((65 <=? n)%nat && (n <=? 90)%nat) || ((97 <=? n)%nat && (n <=? 122)%nat)
  || (n =? 95)%nat.

Definition is_alnum (c : ascii) : bool :=
  let n := nat_of_ascii c in
  is_alpha c || ((48 <=? n)%nat && (n <=? 57)%nat).

Fixpoint all_chars (p : ascii → bool) (s : string) : bool :=
  match s with
  | EmptyString => true
  | String c s' => p c && all_chars p s'
  end.

(** An ASCII Python identifier: a letter or underscore, then letters,
    digits and underscores. *)
Definition is_identifier (s : string) : bool :=
  match s with
  | EmptyString => false
  | String c s' => is_alpha c && all_chars is_alnum s'
  end.

(** The keywords of Python 3. *)
Definition keywords : list string :=
  ["False"; "None"; "True"; "and"; "as"; "assert"; "async"; "await";
   "break"; "class"; "continue"; "def"; "del"; "elif"; "else"; "except";
   "finally"; "for"; "from"; "global"; "if"; "import"; "in"; "is";
   "lambda"; "nonlocal"; "not"; "or"; "pass"; "raise"; "return"; "try";
   "while"; "with"; "yield"].

Definition is_keyword (s : string) : bool := bool_decide (s ∈ keywords).

(** A text that can stand where a statement wants a name. *)
Definition is_name (s : string) : bool :=
  is_identifier s && negb (is_keyword s).

End PyStr.

(** ** SQLAlchemy column types (sqlalchemy.sql.sqltypes)

    The generic types with their bases, and [Subclass name bases] for any
    other type class: a dialect's or a user's, with one base or several.
    [isinstance] searches the ancestors of the class as Python does. *)

Module sqltypes.

#[local] Unset Elimination Schemes.

Inductive TypeEngine :=
  | String | Text | Unicode | UnicodeText | Enum
  | Integer | SmallInteger | BigInteger
  | Numeric | Float
  | Boolean | Date | DateTime | Time | Interval | LargeBinary | NullType
  | Subclass (name : string) (bases : list TypeEngine).

#[local] Set Elimination Schemes.

(** The proper ancestors of a generic type, among the generic types. *)
Definition generic_ancestors (t : TypeEngine) : list TypeEngine :=
  match t with
  | Text | Unicode | Enum => [String]
  | UnicodeText => [Text; String]
  | SmallInteger | BigInteger => [Integer]
  | Float => [Numeric]
  | _ => []
  end.

(** A class and all the classes it derives from. *)
Fixpoint ancestors (t : TypeEngine) : list TypeEngine :=
  t :: match t with
       | Subclass _ bases => flat_map ancestors bases
       | _ => generic_ancestors t
       end.

(** Is [t] the generic class [c]?  Only generic classes are tested for. *)
Definition is_generic (c t : TypeEngine) : bool :=
  match c, t with
  | String, String | Text, Text | Unicode, Unicode
  | UnicodeText, UnicodeText | Enum, Enum
  | Integer, Integer | SmallInteger, SmallInteger | BigInteger, BigInteger
  | Numeric, Numeric | Float, Float
  | Boolean, Boolean | Date, Date | DateTime, DateTime | Time, Time
  | Interval, Interval | LargeBinary, LargeBinary | NullType, NullType => true
  | _, _ => false
  end.

(** [isinstance(col_type, c)] for an instance of the class [t]. *)
Definition isinstance (t c : TypeEngine) : bool :=
  existsb (is_generic c) (ancestors t).

End sqltypes.

Abbreviation sqltype := sqltypes.TypeEngine.

(** ** Columns, tables, model and service classes *)

Record Column := {
  col_name : string;
  col_type : sqltype;
  col_primary_key : bool;
  col_nullable : bool
}.

Record Table := {
  table_name : string;
  table_columns : list Column
}.

(** [table.primary_key.columns] *)
Definition primary_key_columns (t : Table) : list Column :=
  filter (λ c, col_primary_key c = true) (table_columns t).

(** A model class as this module sees it.  [__methods__] is [Some ms] when
    ['__methods__'] is in the class's own [__dict__].  [__url__] is written
    by [register_model] before it is read.  The classes represented are
    those that can be called without arguments, as the constructor of a
    declarative class can: [cls()] in [register_model] then only gives
    access to [__table__]. *)
Record ModelClass := {
  __name__ : string;
  __url__ : string;
  __methods__ : option (gset string);
  __table__ : Table;
  is_automap : bool   (* issubclass(cls, AutomapModel) *)
}.

(** [type(cls.__name__ + 'Service', (Service,), {'__model__': cls})] *)
Record ServiceClass := {
  svc_name : string;
  __model__ : ModelClass
}.

(** [cls.as_view(name)] *)
Record ViewFunc := {
  endpoint : string;
  view_class : ServiceClass
}.

Definition as_view (cls : ServiceClass) (name : string) : ViewFunc :=
  {| endpoint := name; view_class := cls |}.

(** One call of [add_url_rule]. *)
Record Rule := {
  rule : string;
  defaults : list (string * option string);
  view_func : ViewFunc;
  methods : gset string
}.

(** A rule bound with the decorator [@app.route(rule)] on a plain view
    function: the rule, the endpoint (the function's name) and the methods
    Flask gives a rule that names none. *)
Record RouteRule := {
  route_rule : string;
  route_endpoint : string;
  route_methods : gset string
}.

(** The Flask application, with what is hung on it.  Its URL rules are
    kept in two lists: [url_map] holds the rules [register_service] adds
    with [current_app.add_url_rule], each for a service class; [routes]
    holds the rules bound with [@app.route]. *)
Record Flask := {
  SANDMAN2_READ_ONLY : bool;
  url_map : list Rule;
  classes : list ServiceClass;
  admin_views : list ModelClass;     (* admin.add_view(CustomAdminView(cls, _)) *)
  prepared : list (option string);   (* AutomapModel.prepare(.., schema=s) calls *)
  routes : list RouteRule
}.

Inductive Admin := AdminObject.

(** The database behind [db.engine]: the classes automap produces for a
    schema, and the columns reflection finds for a table or view name. *)
Record Database := {
  automap_classes : option string → list ModelClass;
  reflect_table : string → option (list Column)
}.

(** ** State and exceptions *)

Inductive exn :=
  | IndexError
  | SyntaxError
  | NoSuchTableError (name : string).

Inductive outcome (A : Type) :=
  | Ok (a : A) (app : Flask)
  | Raise (e : exn).
Arguments Ok {A} a app.
Arguments Raise {A} e.

Definition M (A : Type) : Type := Flask → outcome A.

Definition ret {A} (a : A) : M A := λ app, Ok a app.

Definition raise {A} (e : exn) : M A := λ _, Raise e.

Definition bind {A B} (m : M A) (k : A → M B) : M B :=
  λ app, match m app with
         | Ok a app' => k a app'
         | Raise e => Raise e
         end.

Declare Scope py_scope.
Delimit Scope py_scope with py.
Notation "x <- m ;; k" := (bind m (λ x, k))
  (at level 100, m at next level, right associativity) : py_scope.
Notation "m ;; k" := (bind m (λ _, k))
  (at level 100, right associativity) : py_scope.
Open Scope py_scope.

(** [for x in xs: body(x)] *)
Fixpoint for_each {A} (xs : list A) (body : A → M unit) : M unit :=
  match xs with
  | [] => ret tt
  | x :: xs' => body x ;; for_each xs' body
  end.

(** [t[i]] on a tuple. *)
Definition getitem (t : list string) (i : nat) : M string :=
  match t !! i with
  | Some x => ret x
  | None => raise IndexError
  end.

(** [current_app.add_url_rule(rule, defaults=.., view_func=.., methods=..)] *)
Definition add_url_rule (r : Rule) : M unit :=
  λ app, Ok tt {| SANDMAN2_READ_ONLY := SANDMAN2_READ_ONLY app;
                  url_map := url_map app ++ [r];
                  classes := classes app;
                  admin_views := admin_views app;
                  prepared := prepared app;
                  routes := routes app |}.

(** [current_app.classes.append(cls)] *)
Definition classes_append (cls : ServiceClass) : M unit :=
  λ app, Ok tt {| SANDMAN2_READ_ONLY := SANDMAN2_READ_ONLY app;
                  url_map := url_map app;
                  classes := classes app ++ [cls];
                  admin_views := admin_views app;
                  prepared := prepared app;
                  routes := routes app |}.

(** [admin.add_view(CustomAdminView(cls, db.session))] *)
Definition admin_add_view (cls : ModelClass) : M unit :=
  λ app, Ok tt {| SANDMAN2_READ_ONLY := SANDMAN2_READ_ONLY app;
                  url_map := url_map app;
                  classes := classes app;
                  admin_views := admin_views app ++ [cls];
                  prepared := prepared app;
                  routes := routes app |}.

(** [AutomapModel.prepare(db.engine, reflect=True, schema=schema)] *)
Definition AutomapModel_prepare (schema : option string) : M unit :=
  λ app, Ok tt {| SANDMAN2_READ_ONLY := SANDMAN2_READ_ONLY app;
                  url_map := url_map app;
                  classes := classes app;
                  admin_views := admin_views app;
                  prepared := prepared app ++ [schema];
                  routes := routes app |}.

(** [@app.route(rule)] on the function [endpoint]; a rule that names no
    method is given GET. *)
Definition app_route (rule endpoint : string) : M unit :=
  λ app, Ok tt {| SANDMAN2_READ_ONLY := SANDMAN2_READ_ONLY app;
                  url_map := url_map app;
                  classes := classes app;
                  admin_views := admin_views app;
                  prepared := prepared app;
                  routes := routes app ++
                            [ {| route_rule := rule;
                                 route_endpoint := endpoint;
                                 route_methods := {[ "GET" ]} |} ] |}.

(** ** register_service *)

(** The local [methods] of [register_service]. *)
Definition allowed_methods (model : ModelClass) : gset string :=
  match __methods__ model with
  | Some ms => ms
  | None => {[ "GET"; "POST" ]}
  end.

Definition register_service (cls : ServiceClass) (primary_key_type : string)
  : M unit :=
  let view_func := as_view cls (PyStr.lower (svc_name cls)) in
  let methods := allowed_methods (__model__ cls) in
  (if bool_decide ("GET" ∈ methods) then
     add_url_rule {| rule := __url__ (__model__ cls) +:+ "/";
                     defaults := [("resource_id", None)];
                     view_func := view_func;
                     methods := {[ "GET" ]} |} ;;
     add_url_rule {| rule := __url__ (__model__ cls) +:+ "/meta";
                     defaults := [];
                     view_func := view_func;
                     methods := {[ "GET" ]} |}
   else ret tt) ;;
  (if bool_decide ("POST" ∈ methods) then
     add_url_rule {| rule := __url__ (__model__ cls) +:+ "/";
                     defaults := [];
                     view_func := view_func;
                     methods := {[ "POST" ]} |}
   else ret tt) ;;
  add_url_rule {| rule := __url__ (__model__ cls) +:+ "/<" +:+ primary_key_type
                          +:+ ":" +:+ "resource_id" +:+ ">";
                  defaults := [];
                  view_func := view_func;
                  methods := methods ∖ {[ "POST" ]} |} ;;
  classes_append cls.

(** ** register_model *)

(** The "inspect primary key" block of [register_model]. *)
Definition primary_key_type (cols : list Column) : string :=
  match cols with
  | [col] =>
      let col_type := col_type col in
      if sqltypes.isinstance col_type sqltypes.String then "string"
      else if sqltypes.isinstance col_type sqltypes.Integer then "int"
      else if sqltypes.isinstance col_type sqltypes.Numeric then "float"
      else "string"
  | _ => "string"
  end.

(** The same block with its list operations spelt out: [len(cols) == 1]
    and the indexing [cols[0]], which raises on an empty list. *)
Definition primary_key_block (cols : list Column) : exn + string :=
  if (List.length cols =? 1)%nat then
    match cols !! 0%nat with
    | Some col =>
        let col_type := col_type col in
        if sqltypes.isinstance col_type sqltypes.String then inr "string"
        else if sqltypes.isinstance col_type sqltypes.Integer then inr "int"
        else if sqltypes.isinstance col_type sqltypes.Numeric then inr "float"
        else inr "string"
    | None => inl IndexError
    end
  else inr "string".

(** [cls.__url__ = '/{}'.format(cls.__name__.lower())] *)
Definition set_url (cls : ModelClass) : ModelClass :=
  {| __name__ := __name__ cls;
     __url__ := "/" +:+ PyStr.lower (__name__ cls);
     __methods__ := __methods__ cls;
     __table__ := __table__ cls;
     is_automap := is_automap cls |}.

Definition register_model (cls : ModelClass) (admin : option Admin) : M unit :=
  let cls := set_url cls in
  let service_class :=
    {| svc_name := __name__ cls +:+ "Service"; __model__ := cls |} in
  let cols := primary_key_columns (__table__ cls) in
  register_service service_class (primary_key_type cols) ;;
  match admin with
  | Some _ => admin_add_view cls
  | None => ret tt
  end.

(** ** _reflect_all *)

(** [cls.__methods__ = {'GET'}] *)
Definition set_methods (cls : ModelClass) (ms : gset string) : ModelClass :=
  {| __name__ := __name__ cls;
     __url__ := __url__ cls;
     __methods__ := Some ms;
     __table__ := __table__ cls;
     is_automap := is_automap cls |}.

(** [exclude_tables and cls.__table__.name in exclude_tables] *)
Definition excluded (exclude_tables : option (list string)) (cls : ModelClass)
  : bool :=
  match exclude_tables with
  | None | Some [] => false
  | Some names => bool_decide (table_name (__table__ cls) ∈ names)
  end.

Definition _reflect_all (db : Database) (exclude_tables : option (list string))
    (admin : option Admin) (read_only : bool) (schema : option string)
  : M unit :=
  AutomapModel_prepare schema ;;
  for_each (automap_classes db schema) (λ cls,
    if excluded exclude_tables cls then ret tt
    else
      let cls := if read_only then set_methods cls {[ "GET" ]} else cls in
      register_model cls admin).

(** ** _register_user_models *)

Definition _register_user_models (user_models : list ModelClass)
    (admin : option Admin) (schema : option string) : M unit :=
  (if existsb is_automap user_models then AutomapModel_prepare schema
   else ret tt) ;;
  for_each user_models (λ user_model, register_model user_model admin).

(** ** _register_view_models *)

(** The columns of
    [Table(view_name, metadata, Column(pk_name, pktype, primary_key=True),
           autoload=True, autoload_with=db.engine)]:
    the reflected columns, the one named like the given column overridden
    by it.  An unknown table raises. *)
Definition Table_autoload (db : Database) (view_name : string) (pk : Column)
  : M (list Column) :=
  match reflect_table db view_name with
  | None => raise (NoSuchTableError view_name)
  | Some reflected =>
      ret (filter (λ c, col_name c ≠ col_name pk) reflected ++ [pk])%list
  end.

(** [setattr(model_class, col_name, col_model)] with a column: the
    declarative class adds it to its table. *)
Definition setattr_column (cls : ModelClass) (col : Column) : ModelClass :=
  {| __name__ := __name__ cls;
     __url__ := __url__ cls;
     __methods__ := __methods__ cls;
     __table__ := {| table_name := table_name (__table__ cls);
                     table_columns := table_columns (__table__ cls) ++ [col] |};
     is_automap := is_automap cls |}.

(** The class statement of the generated source:
    [class view_name(db.Model, Model)] with [__tablename__ = view_name] and
    the one primary-key column. *)
Definition LOC_class (view_name pk_name : string) (pktype : sqltype)
  : ModelClass :=
  {| __name__ := view_name;
     __url__ := "";
     __methods__ := None;
     __table__ :=
       {| table_name := view_name;
          table_columns := [ {| col_name := pk_name; col_type := pktype;
                                col_primary_key := true;
                                col_nullable := false |} ] |};
     is_automap := false |}.

(** [exec(LOC, globals())] followed by [get_cls()].  The view name is put
    after [class] and the key name before [=]: with names that are (ASCII)
    identifiers and no keywords the source is the class statement above
    and the class is defined; a keyword in either place is a syntax error,
    and so is, in this model, any other text that is not an identifier.
    The statement also binds the view's name in the module: what that does
    when the module already uses the name is not modelled, and the
    theorems about views keep to names the module does not bind. *)
Definition exec_LOC (view_name pk_name : string) (pktype : sqltype)
  : M ModelClass :=
  if PyStr.is_name view_name && PyStr.is_name pk_name
  then ret (LOC_class view_name pk_name pktype)
  else raise SyntaxError.

(** The body of the loop [for viewpktype_tuple in l_viewpktype_tuple]. *)
Definition register_view (db : Database) (admin : option Admin)
    (viewpktype_tuple : list string) : M unit :=
  view_name <- getitem viewpktype_tuple 0 ;;
  pk_name <- getitem viewpktype_tuple 1 ;;
  pktype_str <- getitem viewpktype_tuple 2 ;;
  let pktype :=
    if String.eqb pktype_str "string" then sqltypes.String
    else if String.eqb pktype_str "int" then sqltypes.Integer
    else sqltypes.Float in
  model_class <- exec_LOC view_name pk_name pktype ;;
  columns <- Table_autoload db view_name
               {| col_name := pk_name; col_type := pktype;
                  col_primary_key := true; col_nullable := false |} ;;
  let model_class :=
    fold_left (λ model_class col,
                 if String.eqb (col_name col) pk_name then model_class
                 else setattr_column model_class
                        {| col_name := col_name col;
                           col_type := col_type col;
                           col_primary_key := false;
                           col_nullable := true |})
              columns model_class in
  register_model model_class admin.

(** [schema] is accepted and not used. *)
Definition _register_view_models (db : Database)
    (l_viewpktype_tuple : list (list string)) (admin : option Admin)
    (schema : option string) : M unit :=
  for_each l_viewpktype_tuple (register_view db admin).

(** ** get_app *)

(** The application as [Flask('sandman2')] and the configuration lines
    leave it. *)
Definition new_app (read_only : bool) : Flask :=
  {| SANDMAN2_READ_ONLY := read_only;
     url_map := [];
     classes := [];
     admin_views := [];
     prepared := [];
     routes := [] |}.

(** [db] stands for the database that [database_uri] names: what automap
    and reflection find in it.  Python's truth test on [user_models] fails
    for [None] and for the empty list.  The function [index] is bound to
    [/] once the registrations are done. *)
Definition get_app (db : Database) (exclude_tables : option (list string))
    (user_models : option (list ModelClass)) (reflect_all read_only : bool)
    (schema : option string) (str_viewpktype : option string)
  : outcome unit :=
  let admin := Some AdminObject in
  ((match user_models with
    | Some ((_ :: _) as user_models) =>
        _register_user_models user_models admin schema
    | _ =>
        if reflect_all
        then _reflect_all db exclude_tables admin read_only schema
        else ret tt
    end) ;;
   match str_viewpktype with
   | Some str_viewpktype =>
       let l_viewpktype_tuple :=
         map (PyStr.split "/") (PyStr.split "," str_viewpktype) in
       _register_view_models db l_viewpktype_tuple admin schema
   | None => ret tt
   end ;;
   app_route "/" "index") (new_app read_only).

(** ** index *)

(** [routes[k] = v] on a Python dict: a present key keeps its place. *)
Fixpoint dict_set (k v : string) (d : list (string * string))
  : list (string * string) :=
  match d with
  | [] => [(k, v)]
  | (k', v') :: d' =>
      if String.eqb k' k then (k, v) :: d' else (k', v') :: dict_set k v d'
  end.


Section Index.

(** [Model.primary_key()] is defined in sandman2/model.py; it is a parameter
    here. *)
Variable primary_key : ModelClass → string.

Definition index_entry (cls : ServiceClass) : string * string :=
  (__name__ (__model__ cls),
   __url__ (__model__ cls) +:+ "{/" +:+ primary_key (__model__ cls) +:+ "}").

(** The dict [routes] as the loop of [index] leaves it. *)
Definition index (app : Flask) : list (string * string) :=
  fold_left (λ routes cls, dict_set (index_entry cls).1 (index_entry cls).2 routes)
            (classes app) [].


End Index.


(** * Closed forms of the registration functions *)

(** What [register_model cls] hands to [register_service]. *)
Definition service_of (cls : ModelClass) : ServiceClass :=
  {| svc_name := __name__ cls +:+ "Service"; __model__ := set_url cls |}.

Definition collection_rule (svc : ServiceClass) : Rule :=
  {| rule := __url__ (__model__ svc) +:+ "/";
     defaults := [("resource_id", None)];
     view_func := as_view svc (PyStr.lower (svc_name svc));
     methods := {[ "GET" ]} |}.

Definition meta_rule (svc : ServiceClass) : Rule :=
  {| rule := __url__ (__model__ svc) +:+ "/meta";
     defaults := [];
     view_func := as_view svc (PyStr.lower (svc_name svc));
     methods := {[ "GET" ]} |}.

Definition post_rule (svc : ServiceClass) : Rule :=
  {| rule := __url__ (__model__ svc) +:+ "/";
     defaults := [];
     view_func := as_view svc (PyStr.lower (svc_name svc));
     methods := {[ "POST" ]} |}.

Definition item_rule (svc : ServiceClass) (pk_type : string) : Rule :=
  {| rule := __url__ (__model__ svc) +:+ "/<" +:+ pk_type +:+ ":resource_id>";
     defaults := [];
     view_func := as_view svc (PyStr.lower (svc_name svc));
     methods := allowed_methods (__model__ svc) ∖ {[ "POST" ]} |}.

(** The rules one [register_service] call adds, in the order of the calls. *)
Definition routes_of (svc : ServiceClass) (pk_type : string) : list Rule :=
  ((if bool_decide ("GET" ∈ allowed_methods (__model__ svc))
    then [collection_rule svc; meta_rule svc] else []) ++
   (if bool_decide ("POST" ∈ allowed_methods (__model__ svc))
    then [post_rule svc] else []) ++
   [item_rule svc pk_type])%list.

(** The routing type [register_model] resolves for a model class. *)
Definition route_type (cls : ModelClass) : string :=
  primary_key_type (primary_key_columns (__table__ cls)).

Definition model_routes (cls : ModelClass) : list Rule :=
  routes_of (service_of cls) (route_type cls).

(** The application after the model classes [ms] went through
    [register_model], in that order. *)
Definition registered (admin : option Admin) (ms : list ModelClass)
    (app : Flask) : Flask :=
  {| SANDMAN2_READ_ONLY := SANDMAN2_READ_ONLY app;
     url_map := url_map app ++ flat_map model_routes ms;
     classes := classes app ++ map service_of ms;
     admin_views := admin_views app ++
                    match admin with
                    | Some _ => map set_url ms
                    | None => []
                    end;
     prepared := prepared app;
     routes := routes app |}.

(** The application once [index] is bound to [/]. *)
Definition with_index (app : Flask) : Flask :=
  {| SANDMAN2_READ_ONLY := SANDMAN2_READ_ONLY app;
     url_map := url_map app;
     classes := classes app;
     admin_views := admin_views app;
     prepared := prepared app;
     routes := routes app ++
               [ {| route_rule := "/"; route_endpoint := "index";
                    route_methods := {[ "GET" ]} |} ] |}.

Definition with_prepared (schemas : list (option string)) (app : Flask)
  : Flask :=
  {| SANDMAN2_READ_ONLY := SANDMAN2_READ_ONLY app;
     url_map := url_map app;
     classes := classes app;
     admin_views := admin_views app;
     prepared := prepared app ++ schemas;
     routes := routes app |}.

Ltac flask_eq :=
  do 2 f_equal; simpl; rewrite ?app_nil_r, <- ?app_assoc; simpl;
  try reflexivity.

(** * Vocabulary of the statements *)

(** The classes [_reflect_all] passes to [register_model]: the excluded
    ones dropped, [__methods__] overwritten when [read_only] is set. *)
Definition reflected_models (exclude_tables : option (list string))
    (read_only : bool) (cs : list ModelClass) : list ModelClass :=
  map (λ cls, if read_only then set_methods cls {[ "GET" ]} else cls)
      (filter (λ cls, excluded exclude_tables cls = false) cs).

(** The [pktype] chosen from [pktype_str]. *)
Definition pktype_of (pktype_str : string) : sqltype :=
  if String.eqb pktype_str "string" then sqltypes.String
  else if String.eqb pktype_str "int" then sqltypes.Integer
  else sqltypes.Float.

Definition pk_column (pk_name : string) (pktype : sqltype) : Column :=
  {| col_name := pk_name; col_type := pktype;
     col_primary_key := true; col_nullable := false |}.

(** [db.Column(col_name, col.type, nullable=True)] *)
Definition nullable_copy (col : Column) : Column :=
  {| col_name := col_name col; col_type := col_type col;
     col_primary_key := false; col_nullable := true |}.

(** The model class of a view once the loop over the reflected columns has
    run: the declared key first, then every other reflected column. *)
Definition view_model_class (view_name pk_name : string) (pktype : sqltype)
    (reflected : list Column) : ModelClass :=
  {| __name__ := view_name;
     __url__ := "";
     __methods__ := None;
     __table__ :=
       {| table_name := view_name;
          table_columns :=
            pk_column pk_name pktype ::
            map nullable_copy
                (filter (λ c, col_name c ≠ pk_name) reflected) |};
     is_automap := false |}.

(** One iteration of the loop of [_register_view_models], up to the call of
    [register_model]. *)
Definition view_model (db : Database) (viewpktype_tuple : list string)
  : exn + ModelClass :=
  match viewpktype_tuple !! 0%nat, viewpktype_tuple !! 1%nat,
        viewpktype_tuple !! 2%nat with
  | Some view_name, Some pk_name, Some pktype_str =>
      if PyStr.is_name view_name && PyStr.is_name pk_name then
        match reflect_table db view_name with
        | Some reflected =>
            inr (view_model_class view_name pk_name (pktype_of pktype_str)
                   reflected)
        | None => inl (NoSuchTableError view_name)
        end
      else inl SyntaxError
  | _, _, _ => inl IndexError
  end.

Fixpoint view_models (db : Database) (l : list (list string))
  : exn + list ModelClass :=
  match l with
  | [] => inr []
  | t :: l' =>
      match view_model db t with
      | inl e => inl e
      | inr m =>
          match view_models db l' with
          | inl e => inl e
          | inr ms => inr (m :: ms)
          end
      end
  end.

(** [list(map(lambda s: tuple(s.split('/')), str_viewpktype.split(',')))] *)
Definition view_tuples (str_viewpktype : string) : list (list string) :=
  map (PyStr.split "/") (PyStr.split "," str_viewpktype).

(** The model classes the first branch of [get_app] registers. *)
Definition first_models (db : Database) (exclude_tables : option (list string))
    (user_models : option (list ModelClass)) (reflect_all read_only : bool)
    (schema : option string) : list ModelClass :=
  match user_models with
  | Some ((_ :: _) as user_models) => user_models
  | _ =>
      if reflect_all
      then reflected_models exclude_tables read_only (automap_classes db schema)
      else []
  end.

Definition first_prepared (user_models : option (list ModelClass))
    (reflect_all : bool) (schema : option string) : list (option string) :=
  match user_models with
  | Some ((_ :: _) as user_models) =>
      if existsb is_automap user_models then [schema] else []
  | _ => if reflect_all then [schema] else []
  end.

Definition spec_models (db : Database) (str_viewpktype : option string)
  : exn + list ModelClass :=
  match str_viewpktype with
  | Some s => view_models db (view_tuples s)
  | None => inr []
  end.

Definition built (db : Database) (exclude_tables : option (list string))
    (user_models : option (list ModelClass)) (reflect_all read_only : bool)
    (schema : option string) (vms : list ModelClass) : Flask :=
  with_index
    (registered (Some AdminObject)
       (first_models db exclude_tables user_models reflect_all read_only
          schema ++ vms)
       (with_prepared (first_prepared user_models reflect_all schema)
          (new_app read_only))).

(** ** A small database and a few model classes, for concrete runs *)

Module Example.

Definition column (name : string) (type : sqltype) (pk : bool) : Column :=
  {| col_name := name; col_type := type;
     col_primary_key := pk; col_nullable := negb pk |}.

(** A reflected table with an integer key. *)
Definition orders : ModelClass :=
  {| __name__ := "orders";
     __url__ := "";
     __methods__ := None;
     __table__ := {| table_name := "orders";
                     table_columns := [column "id" sqltypes.Integer true;
                                       column "note" sqltypes.Text false] |};
     is_automap := true |}.

(** A reflected table with a two-column key. *)
Definition lines : ModelClass :=
  {| __name__ := "lines";
     __url__ := "";
     __methods__ := None;
     __table__ := {| table_name := "lines";
                     table_columns := [column "order_id" sqltypes.Integer true;
                                       column "pos" sqltypes.Integer true;
                                       column "price" sqltypes.Numeric false] |};
     is_automap := true |}.

(** A user-defined model that declares its methods. *)
Definition widget : ModelClass :=
  {| __name__ := "Widget";
     __url__ := "";
     __methods__ := Some {[ "GET"; "POST"; "PUT"; "DELETE" ]};
     __table__ := {| table_name := "widget";
                     table_columns := [column "code" sqltypes.String true;
                                       column "weight" sqltypes.Float false] |};
     is_automap := false |}.

(** A user-defined model that only accepts POST. *)
Definition inbox : ModelClass :=
  {| __name__ := "Inbox";
     __url__ := "";
     __methods__ := Some {[ "POST" ]};
     __table__ := {| table_name := "inbox";
                     table_columns := [column "id" sqltypes.BigInteger true] |};
     is_automap := false |}.

(** A class mapped on a table that declares no primary key. *)
Definition journal : ModelClass :=
  {| __name__ := "Journal";
     __url__ := "";
     __methods__ := None;
     __table__ := {| table_name := "journal";
                     table_columns := [column "line" sqltypes.Text false] |};
     is_automap := false |}.

(** Two tables for automap, and two views without key metadata. *)
Definition shop : Database :=
  {| automap_classes := λ _, [orders; lines];
     reflect_table := λ name,
       if String.eqb name "reports" then
         Some [column "report_id" sqltypes.Integer false;
               column "title" sqltypes.Text false]
       else if String.eqb name "logs" then
         Some [column "log_id" sqltypes.String false;
               column "line" sqltypes.Text false]
       else None |}.

(** A dialect type that derives from both Numeric and Integer, as the
    Oracle dialect's NUMBER does. *)
Definition NUMBER : sqltype :=
  sqltypes.Subclass "NUMBER" [sqltypes.Numeric; sqltypes.Integer].

(** A table keyed by such a column. *)
Definition ledger : ModelClass :=
  {| __name__ := "ledger";
     __url__ := "";
     __methods__ := None;
     __table__ := {| table_name := "ledger";
                     table_columns := [column "entry" NUMBER true;
                                       column "amount" sqltypes.Numeric false] |};
     is_automap := true |}.

(** A [primary_key] for the runs below: the name of the first key column. *)
Definition first_key (cls : ModelClass) : string :=
  match primary_key_columns (__table__ cls) with
  | col :: _ => col_name col
  | [] => ""
  end.

End Example.

(** [Service] names and allowed methods of what an application registered. *)
(** The routing types as the spec names them, and the URL converter each
    one is written as in a rule: the integer routing type is Flask's
    converter [int]. *)
Inductive RouteType := route_string | route_integer | route_float.

Definition converter (ty : RouteType) : string :=
  match ty with
  | route_string => "string"
  | route_integer => "int"
  | route_float => "float"
  end.

Definition registered_names (app : Flask) : list string :=
  map (λ svc, __name__ (__model__ svc)) (classes app).

Definition registered_methods (app : Flask) : list (gset string) :=
  map (λ svc, allowed_methods (__model__ svc)) (classes app).

(** The claim's reading of [get_app]: the three modes one after the other. *)
Definition three_modes_in_order (db : Database)
    (exclude_tables : option (list string)) (user_models : list ModelClass)
    (read_only : bool) (schema : option string) (str_viewpktype : string)
  : outcome unit :=
  (_register_user_models user_models (Some AdminObject) schema ;;
   _reflect_all db exclude_tables (Some AdminObject) read_only schema ;;
   _register_view_models db (view_tuples str_viewpktype) (Some AdminObject)
     schema) (new_app read_only).

(** A view specification as the triple it is meant to be read as. *)
Record ViewSpec := {
  spec_view : string;
  spec_pk : string;
  spec_tag : string
}.

(** [view_name/pk_name/pktype] *)
Definition spec_item (v : ViewSpec) : string :=
  spec_view v +:+ "/" +:+ spec_pk v +:+ "/" +:+ spec_tag v.

(** [item1,item2,...] *)
Definition spec_string (vs : list ViewSpec) : string :=
  PyStr.join "," (map spec_item vs).

Definition no_separator (s : string) : Prop :=
  PyStr.contains "," s = false ∧ PyStr.contains "/" s = false.

Definition spec_fields_plain (v : ViewSpec) : Prop :=
  no_separator (spec_view v) ∧ no_separator (spec_pk v) ∧
  no_separator (spec_tag v).

(** The model class registered for a view specification, the columns being
    those the database reflects for the view. *)
Definition view_of (db : Database) (v : ViewSpec) : ModelClass :=
  view_model_class (spec_view v) (spec_pk v) (pktype_of (spec_tag v))
    (default [] (reflect_table db (spec_view v))).

(** The routing type that comes out for a type tag. *)
Definition tag_route_type (tag : string) : string :=
  if String.eqb tag "string" then "string"
  else if String.eqb tag "int" then "int"
  else "float".

Definition declared_tag (tag : string) : Prop :=
  tag = "string" ∨ tag = "int" ∨ tag = "float".

(** Names the module, or a declarative class, already uses: what
    sandman2/app.py imports and defines, the built-in functions it calls,
    the function the generated source defines, and attributes every
    declarative class has. *)
Definition reserved_names : list string :=
  ["Flask"; "current_app"; "jsonify"; "sqltypes"; "MetaData"; "Table";
   "Column"; "String"; "Integer"; "Float"; "BadRequestException";
   "ForbiddenException"; "NotFoundException"; "NotAcceptableException";
   "NotImplementedException"; "ConflictException"; "ServerErrorException";
   "ServiceUnavailableException"; "Service"; "db"; "Model"; "AutomapModel";
   "CustomAdminView"; "Admin"; "HTTPBasicAuth"; "auth"; "get_app";
   "register_service"; "register_model"; "get_cls";
   "list"; "map"; "tuple"; "set"; "type"; "len"; "isinstance"; "issubclass";
   "any"; "exec"; "globals"; "setattr";
   "metadata"; "query"; "query_class"].

Definition starts_with_underscore (s : string) : bool :=
  match s with
  | String c _ => Ascii.eqb c "_"
  | EmptyString => false
  end.

(** A name that the generated source can take and that clashes with
    nothing: an ASCII identifier, no keyword, not starting with an
    underscore, and not a reserved name. *)
Definition is_fresh (s : string) : bool :=
  PyStr.is_name s && negb (starts_with_underscore s)
  && negb (bool_decide (s ∈ reserved_names)).

(** A specification entry of the documented form, with names that are
    fresh, for a view the database knows. *)
Definition well_formed_spec (db : Database) (v : ViewSpec) : Prop :=
  is_fresh (spec_view v) = true ∧
  is_fresh (spec_pk v) = true ∧
  declared_tag (spec_tag v) ∧
  is_Some (reflect_table db (spec_view v)).

(** The tables of the model classes registered before the views. *)
Definition first_tables (db : Database) (exclude_tables : option (list string))
    (user_models : option (list ModelClass)) (reflect_all read_only : bool)
    (schema : option string) : list string :=
  map (λ cls, table_name (__table__ cls))
      (first_models db exclude_tables user_models reflect_all read_only schema).


(** * Proofs *)

Lemma flask_eta (app : Flask) :
  {| SANDMAN2_READ_ONLY := SANDMAN2_READ_ONLY app;
     url_map := url_map app;
     classes := classes app;
     admin_views := admin_views app;
     prepared := prepared app;
     routes := routes app |} = app.
Proof. destruct app; reflexivity. Qed.

Lemma registered_nil admin app : registered admin [] app = app.
Proof.
  unfold registered; simpl. destruct admin; rewrite !app_nil_r; apply flask_eta.
Qed.

Lemma registered_app admin ms ms' app :
  registered admin (ms ++ ms') app = registered admin ms' (registered admin ms app).
Proof.
  unfold registered; simpl.
  rewrite flat_map_app, map_app.
  destruct admin; rewrite ?map_app, ?app_nil_r, <- ?app_assoc; reflexivity.
Qed.

Lemma registered_cons admin cls ms app :
  registered admin (cls :: ms) app =
  registered admin ms (registered admin [cls] app).
Proof. apply (registered_app admin [cls] ms). Qed.

Lemma register_service_closed svc pk_type app :
  register_service svc pk_type app =
  Ok tt {| SANDMAN2_READ_ONLY := SANDMAN2_READ_ONLY app;
           url_map := url_map app ++ routes_of svc pk_type;
           classes := classes app ++ [svc];
           admin_views := admin_views app;
           prepared := prepared app;
           routes := routes app |}.
Proof.
  unfold register_service, routes_of, bind, add_url_rule, classes_append, ret.
  do 2 case_bool_decide; simpl; flask_eq.
Qed.

Lemma register_model_closed cls admin app :
  register_model cls admin app = Ok tt (registered admin [cls] app).
Proof.
  unfold register_model, bind. rewrite register_service_closed.
  unfold registered, model_routes, route_type, service_of; simpl.
  destruct admin; simpl; unfold admin_add_view, ret; simpl;
    rewrite ?app_nil_r; reflexivity.
Qed.

Lemma for_each_register_model admin ms app :
  for_each ms (λ cls, register_model cls admin) app =
  Ok tt (registered admin ms app).
Proof.
  revert app; induction ms as [|cls ms IH]; intros app; simpl.
  - unfold ret. by rewrite registered_nil.
  - unfold bind. rewrite register_model_closed, IH.
    by rewrite <- registered_cons.
Qed.

Lemma with_prepared_nil app : with_prepared [] app = app.
Proof. unfold with_prepared. rewrite app_nil_r. apply flask_eta. Qed.

Lemma for_each_reflect exclude_tables admin (read_only : bool) cs app :
  for_each cs (λ cls,
    if excluded exclude_tables cls then ret tt
    else register_model
           (if read_only then set_methods cls {[ "GET" ]} else cls) admin) app =
  Ok tt (registered admin (reflected_models exclude_tables read_only cs) app).
Proof.
  unfold reflected_models.
  revert app; induction cs as [|cls cs IH]; intros app; simpl.
  - unfold ret. by rewrite registered_nil.
  - unfold bind. rewrite filter_cons. case_decide as E.
    + rewrite E, register_model_closed, IH. simpl.
      by rewrite <- registered_cons.
    + apply not_false_is_true in E. rewrite E. unfold ret. apply IH.
Qed.

Lemma _reflect_all_closed db exclude_tables admin read_only schema app :
  _reflect_all db exclude_tables admin read_only schema app =
  Ok tt (registered admin
           (reflected_models exclude_tables read_only (automap_classes db schema))
           (with_prepared [schema] app)).
Proof.
  unfold _reflect_all, bind at 1. unfold AutomapModel_prepare.
  apply for_each_reflect.
Qed.

Lemma _register_user_models_closed user_models admin schema app :
  _register_user_models user_models admin schema app =
  Ok tt (registered admin user_models
           (with_prepared
              (if existsb is_automap user_models then [schema] else []) app)).
Proof.
  unfold _register_user_models, bind at 1.
  destruct (existsb is_automap user_models).
  - unfold AutomapModel_prepare. apply for_each_register_model.
  - unfold ret. rewrite with_prepared_nil. apply for_each_register_model.
Qed.

Lemma fold_setattr pk_name cols cls :
  fold_left (λ model_class col,
               if String.eqb (col_name col) pk_name then model_class
               else setattr_column model_class
                      {| col_name := col_name col; col_type := col_type col;
                         col_primary_key := false; col_nullable := true |})
            cols cls =
  {| __name__ := __name__ cls;
     __url__ := __url__ cls;
     __methods__ := __methods__ cls;
     __table__ :=
       {| table_name := table_name (__table__ cls);
          table_columns :=
            table_columns (__table__ cls) ++
            map nullable_copy (filter (λ c, col_name c ≠ pk_name) cols) |};
     is_automap := is_automap cls |}.
Proof.
  revert cls; induction cols as [|col cols IH]; intros cls; simpl.
  - rewrite app_nil_r. by destruct cls as [? ? ? [? ?] ?].
  - rewrite filter_cons. destruct (String.eqb_spec (col_name col) pk_name).
    + rewrite decide_False by tauto. apply IH.
    + rewrite decide_True by done. rewrite IH. simpl.
      by rewrite <- app_assoc.
Qed.

Lemma filter_other_columns pk_name pk reflected :
  col_name pk = pk_name →
  filter (λ c, col_name c ≠ pk_name)
         (filter (λ c, col_name c ≠ col_name pk) reflected ++ [pk]) =
  filter (λ c, col_name c ≠ pk_name) reflected.
Proof.
  intros <-.
  rewrite filter_app, filter_cons, decide_False by tauto.
  rewrite filter_nil, app_nil_r.
  induction reflected as [|c l IH]; [done|].
  rewrite filter_cons. case_decide; [|done].
  rewrite filter_cons, decide_True by done. by rewrite IH.
Qed.

Lemma register_view_closed db admin t app :
  register_view db admin t app =
  match view_model db t with
  | inr m => register_model m admin app
  | inl e => Raise e
  end.
Proof.
  unfold register_view, view_model, getitem.
  destruct (t !! 0%nat) as [view_name|]; [|done].
  destruct (t !! 1%nat) as [pk_name|]; [|done].
  destruct (t !! 2%nat) as [pktype_str|]; [|done].
  unfold bind, ret, exec_LOC.
  destruct (PyStr.is_name view_name && PyStr.is_name pk_name); [|done].
  unfold ret, Table_autoload.
  destruct (reflect_table db view_name) as [reflected|]; [|done].
  unfold ret; cbn beta iota.
  rewrite fold_setattr.
  cbn [LOC_class __name__ __url__ __methods__ __table__ is_automap
       table_name table_columns].
  rewrite filter_other_columns by reflexivity.
  reflexivity.
Qed.

Lemma _register_view_models_closed db l admin schema app :
  _register_view_models db l admin schema app =
  match view_models db l with
  | inr ms => Ok tt (registered admin ms app)
  | inl e => Raise e
  end.
Proof.
  unfold _register_view_models.
  revert app; induction l as [|t l IH]; intros app; simpl.
  - unfold ret. by rewrite registered_nil.
  - unfold bind. rewrite register_view_closed.
    destruct (view_model db t) as [e|m]; [done|].
    rewrite register_model_closed, IH.
    destruct (view_models db l) as [e|ms]; [done|].
    by rewrite <- registered_cons.
Qed.

(** ** get_app in closed form *)

Lemma get_app_closed db exclude_tables user_models reflect_all read_only schema
    str_viewpktype :
  get_app db exclude_tables user_models reflect_all read_only schema
          str_viewpktype =
  match spec_models db str_viewpktype with
  | inr vms =>
      Ok tt (built db exclude_tables user_models reflect_all read_only schema vms)
  | inl e => Raise e
  end.
Proof.
  unfold get_app, built, bind.
  assert (Hfirst :
    (match user_models with
     | Some ((_ :: _) as user_models) =>
         _register_user_models user_models (Some AdminObject) schema
     | _ =>
         if reflect_all
         then _reflect_all db exclude_tables (Some AdminObject) read_only schema
         else ret tt
     end) (new_app read_only) =
    Ok tt (registered (Some AdminObject)
             (first_models db exclude_tables user_models reflect_all read_only
                schema)
             (with_prepared (first_prepared user_models reflect_all schema)
                (new_app read_only)))).
  { unfold first_models, first_prepared.
    destruct user_models as [[|u us]|]; destruct reflect_all;
      rewrite ?_register_user_models_closed, ?_reflect_all_closed;
      try reflexivity;
      unfold ret; by rewrite with_prepared_nil, registered_nil. }
  rewrite Hfirst. clear Hfirst.
  destruct str_viewpktype as [s|]; simpl.
  - fold (view_tuples s). rewrite _register_view_models_closed.
    destruct (view_models db (view_tuples s)) as [e|vms]; [done|].
    by rewrite registered_app.
  - unfold ret. by rewrite app_nil_r.
Qed.

(** The first branch never raises: without a view specification [get_app]
    returns an application. *)
Lemma get_app_no_views db exclude_tables user_models reflect_all read_only
    schema :
  get_app db exclude_tables user_models reflect_all read_only schema None =
  Ok tt (built db exclude_tables user_models reflect_all read_only schema []).
Proof. by rewrite get_app_closed. Qed.

Lemma elem_of_reflected_models exclude_tables read_only cs m :
  m ∈ reflected_models exclude_tables read_only cs →
  ∃ cls, cls ∈ cs ∧ excluded exclude_tables cls = false ∧
         m = (if read_only then set_methods cls {[ "GET" ]} else cls).
Proof.
  unfold reflected_models. rewrite list_elem_of_fmap.
  intros (cls & -> & Hin). apply list_elem_of_filter in Hin as [Hex Hin].
  by exists cls.
Qed.


(** * C1: the read-only flag *)

(** C1.  The claim: with the read-only flag set, every registered resource
    allows exactly GET, whichever mode registered it.  The code applies the
    flag in [_reflect_all] only.  Evaluated here: with [read_only] set, a
    user model that declares GET, POST, PUT and DELETE keeps all four, and
    a view registered from a specification gets the default GET and POST;
    neither set is the set holding GET alone. *)
Theorem C1_read_only_only_applied_by_reflect_all :
  (∃ app,
     get_app Example.shop None (Some [Example.widget]) true true None None
       = Ok tt app ∧
     SANDMAN2_READ_ONLY app = true ∧
     registered_methods app = [ {[ "GET"; "POST"; "PUT"; "DELETE" ]} ] ∧
     registered_methods app ≠ [ {[ "GET" ]} ]) ∧
  (∃ app,
     get_app Example.shop None None false true None
             (Some "reports/report_id/int") = Ok tt app ∧
     SANDMAN2_READ_ONLY app = true ∧
     registered_methods app = [ {[ "GET"; "POST" ]} ] ∧
     registered_methods app ≠ [ {[ "GET" ]} ]).
Proof.
  split; eexists; (split; [vm_compute; reflexivity|]);
    split; [reflexivity| |reflexivity|]; split; try by vm_compute.
Qed.


(** * C2: the order of the discovery modes *)

(** C2, counterexample.  One user model, reflection enabled, one view: the
    three modes in a row would register Widget, orders, lines and reports;
    [get_app] registers Widget and reports only. *)
Lemma C2_counterexample_reflection_skipped :
  ∃ app app',
    get_app Example.shop None (Some [Example.widget]) true false None
            (Some "reports/report_id/int") = Ok tt app ∧
    three_modes_in_order Example.shop None [Example.widget] false None
            "reports/report_id/int" = Ok tt app' ∧
    registered_names app = ["Widget"; "reports"] ∧
    registered_names app' = ["Widget"; "orders"; "lines"; "reports"] ∧
    app ≠ app'.
Proof.
  do 2 eexists.
  split; [vm_compute; reflexivity|].
  split; [vm_compute; reflexivity|].
  split; [reflexivity|]. split; [reflexivity|].
  intros H. apply (f_equal registered_names) in H. vm_compute in H.
  discriminate H.
Qed.

(** C2, amended.  Whatever the view specification parses to, [get_app]
    registers in this order: the explicit models when the list is not
    empty, and then no reflected table, whether reflection is enabled or
    not; the reflected tables when there is no explicit model and
    reflection is enabled; and the views of the specification after them.
    A view that cannot be built makes the call raise. *)
Theorem C2_explicit_models_replace_reflection
    (db : Database) (exclude_tables : option (list string))
    (user_models : option (list ModelClass)) (reflect_all read_only : bool)
    (schema : option string) (str_viewpktype : string) :
  match view_models db (view_tuples str_viewpktype) with
  | inr vms =>
      ∃ app,
        get_app db exclude_tables user_models reflect_all read_only schema
                (Some str_viewpktype) = Ok tt app ∧
        classes app =
          map service_of
              (match user_models with
               | Some (u :: us) => u :: us
               | _ =>
                   if reflect_all
                   then reflected_models exclude_tables read_only
                          (automap_classes db schema)
                   else []
               end) ++
          map service_of vms
  | inl e =>
      get_app db exclude_tables user_models reflect_all read_only schema
              (Some str_viewpktype) = Raise e
  end.
Proof.
  rewrite get_app_closed; simpl.
  destruct (view_models db (view_tuples str_viewpktype)) as [e|vms]; [done|].
  eexists; split; [reflexivity|].
  unfold built, first_models; simpl. rewrite map_app.
  by destruct user_models as [[|u us]|].
Qed.

(** * C3: the routing type of the primary key *)

(** C3.  The block of [register_model] that resolves the routing type
    never raises: [cols[0]] is only reached under [len(cols) == 1].  Its
    result follows the rule, the tests taken in order: a key of more than
    one column gives the string type; for a single key column, a character
    type gives the string type; failing that, an integral type gives the
    integer type (the converter [int]); failing that too, a numeric,
    decimal or floating type gives the float type; any other type gives
    the string type.  The item rule that [register_model] binds is typed
    with the result. *)
Theorem C3_primary_key_route_type (cols : list Column) :
  primary_key_block cols = inr (primary_key_type cols) ∧
  ((1 < List.length cols)%nat →
   primary_key_type cols = converter route_string) ∧
  (∀ col, cols = [col] →
     (sqltypes.isinstance (col_type col) sqltypes.String = true →
      primary_key_type cols = converter route_string) ∧
     (sqltypes.isinstance (col_type col) sqltypes.String = false →
      sqltypes.isinstance (col_type col) sqltypes.Integer = true →
      primary_key_type cols = converter route_integer) ∧
     (sqltypes.isinstance (col_type col) sqltypes.String = false →
      sqltypes.isinstance (col_type col) sqltypes.Integer = false →
      sqltypes.isinstance (col_type col) sqltypes.Numeric = true →
      primary_key_type cols = converter route_float) ∧
     (sqltypes.isinstance (col_type col) sqltypes.String = false →
      sqltypes.isinstance (col_type col) sqltypes.Integer = false →
      sqltypes.isinstance (col_type col) sqltypes.Numeric = false →
      primary_key_type cols = converter route_string)) ∧
  (∀ cls admin app app',
     cols = primary_key_columns (__table__ cls) →
     register_model cls admin app = Ok tt app' →
     last (url_map app') =
       Some (item_rule (service_of cls) (primary_key_type cols))).
Proof.
  split; [|split; [|split]].
  - destruct cols as [|col [|col' cols]]; try reflexivity.
    unfold primary_key_block, primary_key_type; simpl.
    by repeat destruct (sqltypes.isinstance _ _).
  - destruct cols as [|col [|col' cols]]; simpl; [lia|lia|done].
  - intros col ->. unfold primary_key_type.
    repeat split.
    + by intros ->.
    + by intros -> ->.
    + by intros -> -> ->.
    + by intros -> -> ->.
  - intros cls admin app app' -> Hrun.
    rewrite register_model_closed in Hrun. injection Hrun as <-.
    unfold registered; simpl. rewrite app_nil_r.
    unfold model_routes, routes_of, route_type.
    by rewrite !app_assoc, last_snoc.
Qed.

(** C3, witness: a key column of the type [NUMBER], which is numeric and
    integral at once, is routed as an integer, the test for the integral
    types coming first; a key of two columns is routed as a string. *)
Lemma C3_primary_key_route_type_witness :
  primary_key_type (primary_key_columns (__table__ Example.ledger)) = "int" ∧
  primary_key_type (primary_key_columns (__table__ Example.lines)) = "string".
Proof.
  split.
  - exact (proj1 (proj2 (proj1 (proj2 (proj2
             (C3_primary_key_route_type
                (primary_key_columns (__table__ Example.ledger)))))
             (Example.column "entry" Example.NUMBER true) eq_refl))
             eq_refl eq_refl).
  - refine (proj1 (proj2 (C3_primary_key_route_type
                            (primary_key_columns (__table__ Example.lines))))
              _).
    simpl; lia.
Defined.

(** * Splitting and joining *)

Lemma contains_append sep a b :
  PyStr.contains sep (a +:+ b) = PyStr.contains sep a || PyStr.contains sep b.
Proof.
  induction a as [|c a IH]; simpl; [done|].
  rewrite IH. by destruct (Ascii.eqb c sep).
Qed.

Lemma split_not_nil sep s : PyStr.split sep s ≠ [].
Proof.
  destruct s as [|c s]; simpl; [done|].
  destruct (Ascii.eqb c sep); [done|].
  by destruct (PyStr.split sep s).
Qed.

Lemma split_plain sep s :
  PyStr.contains sep s = false → PyStr.split sep s = [s].
Proof.
  induction s as [|c s IH]; simpl; [done|].
  destruct (Ascii.eqb c sep); simpl; [done|].
  intros H. by rewrite IH.
Qed.

Lemma split_append sep a b :
  PyStr.contains sep a = false →
  PyStr.split sep (a +:+ String sep b) = a :: PyStr.split sep b.
Proof.
  induction a as [|c a IH]; simpl.
  - intros _. by rewrite Ascii.eqb_refl.
  - destruct (Ascii.eqb c sep); simpl; [done|].
    intros H. by rewrite IH.
Qed.

Lemma split_join sep parts :
  parts ≠ [] →
  Forall (λ p, PyStr.contains sep p = false) parts →
  PyStr.split sep (PyStr.join sep parts) = parts.
Proof.
  induction parts as [|p parts IH]; [done|].
  intros _ Hall. apply Forall_cons in Hall as [Hp Hall].
  destruct parts as [|q parts].
  - simpl. apply split_plain, Hp.
  - change (PyStr.join sep (p :: q :: parts))
      with (p +:+ String sep (PyStr.join sep (q :: parts))).
    rewrite (split_append sep p _ Hp). f_equal. by apply IH.
Qed.

Lemma all_chars_contains p sep s :
  p sep = false → PyStr.all_chars p s = true → PyStr.contains sep s = false.
Proof.
  intros Hsep. induction s as [|c s IH]; simpl; [done|].
  intros [Hc Hs]%andb_prop.
  rewrite IH by done. rewrite orb_false_r.
  destruct (Ascii.eqb_spec c sep) as [->|]; [congruence|done].
Qed.

Lemma identifier_plain sep s :
  PyStr.is_alnum sep = false →
  PyStr.is_identifier s = true → PyStr.contains sep s = false.
Proof.
  intros Hsep. destruct s as [|c s]; simpl; [done|].
  intros [Hc Hs]%andb_prop.
  apply (all_chars_contains PyStr.is_alnum sep (String c s) Hsep).
  simpl. rewrite Hs, andb_true_r. unfold PyStr.is_alnum. by rewrite Hc.
Qed.

Lemma view_tuples_spec_string vs :
  vs ≠ [] →
  Forall spec_fields_plain vs →
  view_tuples (spec_string vs) =
  map (λ v, [spec_view v; spec_pk v; spec_tag v]) vs.
Proof.
  intros Hne Hall. unfold view_tuples, spec_string.
  rewrite split_join.
  - rewrite <- list_fmap_compose. apply Forall_fmap_ext_1.
    eapply Forall_impl; [exact Hall|].
    intros v ((_ & Hv) & (_ & Hp) & (_ & Ht)). unfold compose.
    change (spec_item v)
      with (spec_view v +:+ String "/" (spec_pk v +:+ String "/" (spec_tag v))).
    rewrite split_append by done. rewrite split_append by done.
    by rewrite split_plain.
  - by destruct vs.
  - apply Forall_fmap. eapply Forall_impl; [exact Hall|].
    intros v ((Hv & _) & (Hp & _) & (Ht & _)).
    unfold compose, spec_item.
    rewrite !contains_append. simpl. by rewrite Hv, Hp, Ht.
Qed.

(** * Rules and registry of a built application *)

Lemma route_type_set_url cls : route_type (set_url cls) = route_type cls.
Proof. reflexivity. Qed.

Lemma flat_map_model_routes ms :
  flat_map model_routes ms =
  flat_map (λ svc, routes_of svc (route_type (__model__ svc)))
           (map service_of ms).
Proof. induction ms as [|m ms IH]; simpl; [done|]. by rewrite IH. Qed.

(** Every rule of a registration points back to the service class it was
    added for. *)
Lemma routes_of_view_class svc pk_type r :
  r ∈ routes_of svc pk_type → view_class (view_func r) = svc.
Proof.
  unfold routes_of. rewrite !elem_of_app.
  do 2 case_bool_decide;
    rewrite ?elem_of_cons, ?elem_of_nil; intuition subst; reflexivity.
Qed.

Lemma item_rule_in_routes svc pk_type :
  item_rule svc pk_type ∈ routes_of svc pk_type.
Proof. unfold routes_of. set_solver. Qed.

Lemma routes_of_default svc pk_type :
  __methods__ (__model__ svc) = None →
  routes_of svc pk_type =
  [collection_rule svc; meta_rule svc; post_rule svc; item_rule svc pk_type] ∧
  methods (item_rule svc pk_type) = {[ "GET" ]}.
Proof.
  intros H. unfold routes_of, item_rule, allowed_methods. rewrite H. simpl.
  split; [reflexivity|]. by vm_compute.
Qed.

(** * C4: resources without a method declaration *)

(** C4.  For a service class whose model declares no [__methods__], as is
    the case of every class that the read-only flag has not rewritten,
    the allowed methods are GET and POST, and [register_service] returns
    having added exactly four rules, in this order: GET on [url/], GET on
    [url/meta], POST on [url/], and the item rule
    [url/<type:resource_id>] for GET alone, POST being left out of the
    item rule; the class is appended to the registry. *)
Theorem C4_default_methods_and_routes
    (svc : ServiceClass) (pk_type : string) (app : Flask) :
  __methods__ (__model__ svc) = None →
  allowed_methods (__model__ svc) = {[ "GET"; "POST" ]} ∧
  ∃ app', register_service svc pk_type app = Ok tt app' ∧
    url_map app' =
      url_map app ++
      [ {| rule := __url__ (__model__ svc) +:+ "/";
           defaults := [("resource_id", None)];
           view_func := as_view svc (PyStr.lower (svc_name svc));
           methods := {[ "GET" ]} |};
        {| rule := __url__ (__model__ svc) +:+ "/meta";
           defaults := [];
           view_func := as_view svc (PyStr.lower (svc_name svc));
           methods := {[ "GET" ]} |};
        {| rule := __url__ (__model__ svc) +:+ "/";
           defaults := [];
           view_func := as_view svc (PyStr.lower (svc_name svc));
           methods := {[ "POST" ]} |};
        {| rule := __url__ (__model__ svc) +:+ "/<" +:+ pk_type
                   +:+ ":resource_id>";
           defaults := [];
           view_func := as_view svc (PyStr.lower (svc_name svc));
           methods := {[ "GET" ]} |} ] ∧
    classes app' = classes app ++ [svc].
Proof.
  intros Hnone. split.
  { unfold allowed_methods. by rewrite Hnone. }
  eexists; split; [apply register_service_closed|]. simpl.
  split; [|reflexivity].
  destruct (routes_of_default svc pk_type Hnone) as [-> Hitem].
  unfold collection_rule, meta_rule, post_rule.
  do 4 f_equal. unfold item_rule in *. simpl in Hitem. by rewrite Hitem.
Qed.

(** C4, witness: the reflected table [orders], which declares no method,
    registered on a new application with the routing type [int]. *)
Lemma C4_default_methods_and_routes_witness :
  ∃ app', register_service (service_of Example.orders) "int" (new_app false)
            = Ok tt app' ∧
    map (λ r, (rule r, elements (methods r))) (url_map app') =
      [("/orders/", ["GET"]); ("/orders/meta", ["GET"]);
       ("/orders/", ["POST"]); ("/orders/<int:resource_id>", ["GET"])].
Proof.
  destruct (proj2 (C4_default_methods_and_routes (service_of Example.orders)
                     "int" (new_app false) eq_refl))
    as (app' & Hrun & Hrules & _).
  exists app'. split; [exact Hrun|].
  rewrite Hrules. reflexivity.
Defined.

(** * C10: the item rule is always added *)

(** C10.  [register_service] never raises and always adds the item rule
    [url/<type:resource_id>] last, with the allowed methods less POST; for
    a resource that declares POST alone the rules added are the POST rule
    of the collection and the item rule with no method at all. *)
Theorem C10_item_rule_added_unconditionally
    (svc : ServiceClass) (pk_type : string) (app : Flask) :
  ∃ app', register_service svc pk_type app = Ok tt app' ∧
    last (url_map app') =
      Some {| rule := __url__ (__model__ svc) +:+ "/<" +:+ pk_type
                      +:+ ":resource_id>";
              defaults := [];
              view_func := as_view svc (PyStr.lower (svc_name svc));
              methods := allowed_methods (__model__ svc) ∖ {[ "POST" ]} |} ∧
    classes app' = classes app ++ [svc] ∧
    (__methods__ (__model__ svc) = Some {[ "POST" ]} →
     url_map app' =
       url_map app ++
       [ post_rule svc;
         {| rule := __url__ (__model__ svc) +:+ "/<" +:+ pk_type
                    +:+ ":resource_id>";
            defaults := [];
            view_func := as_view svc (PyStr.lower (svc_name svc));
            methods := ∅ |} ]).
Proof.
  eexists; split; [apply register_service_closed|]. simpl.
  split; [|split; [reflexivity|]].
  - unfold routes_of. by rewrite !app_assoc, last_snoc.
  - intros H. unfold routes_of, item_rule, allowed_methods. rewrite H.
    do 2 f_equal.
Qed.

(** C10, witness: the user model [inbox], which declares POST alone. *)
Lemma C10_item_rule_added_unconditionally_witness :
  ∃ app', register_service (service_of Example.inbox) "int" (new_app false)
            = Ok tt app' ∧
    map (λ r, (rule r, elements (methods r))) (url_map app') =
      [("/inbox/", ["POST"]); ("/inbox/<int:resource_id>", [])].
Proof.
  destruct (C10_item_rule_added_unconditionally
              (service_of Example.inbox) "int" (new_app false))
    as (app' & Hrun & _ & _ & Hrules).
  exists app'. split; [exact Hrun|].
  rewrite (Hrules eq_refl). reflexivity.
Defined.

(** * C6: a resource without primary-key columns *)

(** C6, counterexample.  [journal] has no primary-key column; registering
    it as a user model builds the application, with the item rule typed
    ["string"]. *)
Lemma C6_counterexample_no_key_is_registered :
  primary_key_columns (__table__ Example.journal) = [] ∧
  ∃ app,
    get_app Example.shop None (Some [Example.journal]) true false None None
      = Ok tt app ∧
    registered_names app = ["Journal"] ∧
    map rule (url_map app) =
      ["/journal/"; "/journal/meta"; "/journal/";
       "/journal/<string:resource_id>"].
Proof.
  split; [reflexivity|]. eexists.
  split; [apply get_app_no_views|]. by vm_compute.
Qed.

(** C6, amended.  For a class without primary-key columns [register_model]
    does not raise: it resolves the routing type ["string"], binds the item
    rule with it and appends the service class to the registry. *)
Theorem C6_no_key_registers_with_string
    (cls : ModelClass) (admin : option Admin) (app : Flask) :
  primary_key_columns (__table__ cls) = [] →
  ∃ app', register_model cls admin app = Ok tt app' ∧
    route_type cls = "string" ∧
    classes app' = classes app ++ [service_of cls] ∧
    last (url_map app') = Some (item_rule (service_of cls) "string").
Proof.
  intros Hnone. eexists; split; [apply register_model_closed|].
  assert (Hty : route_type cls = "string").
  { unfold route_type. by rewrite Hnone. }
  split; [exact Hty|]. split; [reflexivity|].
  unfold registered; simpl. rewrite app_nil_r.
  unfold model_routes, routes_of. rewrite Hty.
  by rewrite !app_assoc, last_snoc.
Qed.

(** C6, witness: [journal]. *)
Lemma C6_no_key_registers_with_string_witness :
  ∃ app', register_model Example.journal None (new_app false) = Ok tt app' ∧
    route_type Example.journal = "string" ∧
    classes app' = [service_of Example.journal] ∧
    last (url_map app') = Some (item_rule (service_of Example.journal) "string").
Proof.
  exact (C6_no_key_registers_with_string Example.journal None (new_app false)
           eq_refl).
Defined.

(** * C9: excluded tables *)

Lemma excluded_false_not_in names cls :
  excluded (Some names) cls = false → table_name (__table__ cls) ∉ names.
Proof.
  unfold excluded. destruct names as [|n ns].
  - intros _. apply not_elem_of_nil.
  - intros H. by apply bool_decide_eq_false in H.
Qed.

Lemma not_in_excluded_false exclude_tables cls :
  (∀ names, exclude_tables = Some names →
            table_name (__table__ cls) ∉ names) →
  excluded exclude_tables cls = false.
Proof.
  unfold excluded. destruct exclude_tables as [[|n ns]|]; try done.
  intros H. apply bool_decide_eq_false. by apply H.
Qed.

Lemma reflected_table_name exclude_tables read_only cs m :
  m ∈ reflected_models exclude_tables read_only cs →
  ∃ cls, cls ∈ cs ∧ excluded exclude_tables cls = false ∧
         __table__ (set_url m) = __table__ cls ∧ __name__ m = __name__ cls.
Proof.
  intros (cls & Hin & Hex & ->)%elem_of_reflected_models.
  exists cls. by destruct read_only.
Qed.

(** C9.  Full reflection with an exclusion list: the application is built,
    no registered service class and no URL rule belongs to a table whose
    name is in the list, and every other reflected table is registered. *)
Theorem C9_excluded_tables_are_skipped
    (db : Database) (exclude_tables : list string) (read_only : bool)
    (schema : option string) :
  ∃ app,
    get_app db (Some exclude_tables) None true read_only schema None
      = Ok tt app ∧
    (∀ svc, svc ∈ classes app →
       table_name (__table__ (__model__ svc)) ∉ exclude_tables) ∧
    (∀ r, r ∈ url_map app →
       table_name (__table__ (__model__ (view_class (view_func r))))
         ∉ exclude_tables) ∧
    (∀ cls, cls ∈ automap_classes db schema →
       table_name (__table__ cls) ∉ exclude_tables →
       ∃ svc, svc ∈ classes app ∧
              __table__ (__model__ svc) = __table__ cls ∧
              __name__ (__model__ svc) = __name__ cls).
Proof.
  eexists; split; [apply get_app_no_views|].
  unfold built, registered, first_models; simpl. rewrite app_nil_r.
  assert (Hsvc : ∀ svc,
    svc ∈ map service_of
            (reflected_models (Some exclude_tables) read_only
               (automap_classes db schema)) →
    table_name (__table__ (__model__ svc)) ∉ exclude_tables).
  { intros svc (m & -> & Hm)%list_elem_of_fmap.
    apply reflected_table_name in Hm as (cls & _ & Hex & Htab & _).
    simpl. change (__table__ m) with (__table__ (set_url m)).
    rewrite Htab. by apply excluded_false_not_in. }
  split; [exact Hsvc|]. split.
  - intros r Hr. rewrite flat_map_model_routes in Hr.
    apply list_elem_of_In, in_flat_map in Hr as (svc & Hin & Hr).
    apply list_elem_of_In in Hin, Hr.
    rewrite (routes_of_view_class _ _ _ Hr). by apply Hsvc.
  - intros cls Hin Hnot.
    exists (service_of (if read_only then set_methods cls {[ "GET" ]} else cls)).
    split; [|by destruct read_only].
    apply list_elem_of_fmap. eexists; split; [reflexivity|].
    unfold reflected_models. apply list_elem_of_fmap.
    exists cls; split; [reflexivity|].
    apply list_elem_of_filter. split; [|done].
    apply not_in_excluded_false. by intros names [= <-].
Qed.

(** The instance of the claim: the table [orders] with the exclusion list
    holding ["orders"] leaves [lines] alone in the registry. *)
Example excluded_orders :
  ∃ app,
    get_app Example.shop (Some ["orders"]) None true false None None
      = Ok tt app ∧
    registered_names app = ["lines"] ∧
    map rule (url_map app) =
      ["/lines/"; "/lines/meta"; "/lines/"; "/lines/<string:resource_id>"].
Proof. eexists. split; [apply get_app_no_views|]. by vm_compute. Qed.

(** * Views registered from a specification *)

Lemma fresh_is_name s : is_fresh s = true → PyStr.is_name s = true.
Proof. unfold is_fresh. by intros [[H _]%andb_prop _]%andb_prop. Qed.

Lemma name_is_identifier s :
  PyStr.is_name s = true → PyStr.is_identifier s = true.
Proof. unfold PyStr.is_name. by intros [H _]%andb_prop. Qed.

Lemma fresh_no_separator s : is_fresh s = true → no_separator s.
Proof.
  intros H%fresh_is_name%name_is_identifier. split; by apply identifier_plain.
Qed.

Lemma declared_tag_no_separator tag : declared_tag tag → no_separator tag.
Proof. intros [->|[->| ->]]; by split. Qed.

Lemma well_formed_plain db v : well_formed_spec db v → spec_fields_plain v.
Proof.
  intros (Hv & Hp & Ht & _). split; [|split].
  - by apply fresh_no_separator.
  - by apply fresh_no_separator.
  - by apply declared_tag_no_separator.
Qed.

Lemma view_models_specs db vs :
  Forall (λ v, PyStr.is_name (spec_view v) = true ∧
               PyStr.is_name (spec_pk v) = true ∧
               is_Some (reflect_table db (spec_view v))) vs →
  view_models db (map (λ v, [spec_view v; spec_pk v; spec_tag v]) vs) =
  inr (map (view_of db) vs).
Proof.
  induction 1 as [|v vs (Hv & Hp & [reflected Hr]) _ IH]; simpl; [done|].
  unfold view_model; simpl. unfold view_of. by rewrite Hv, Hp, Hr, IH.
Qed.

Lemma get_app_spec_string db exclude_tables user_models reflect_all read_only
    schema vs :
  vs ≠ [] →
  Forall spec_fields_plain vs →
  Forall (λ v, PyStr.is_name (spec_view v) = true ∧
               PyStr.is_name (spec_pk v) = true ∧
               is_Some (reflect_table db (spec_view v))) vs →
  get_app db exclude_tables user_models reflect_all read_only schema
          (Some (spec_string vs)) =
  Ok tt (built db exclude_tables user_models reflect_all read_only schema
           (map (view_of db) vs)).
Proof.
  intros Hne Hplain Htab. rewrite get_app_closed; simpl.
  by rewrite view_tuples_spec_string, view_models_specs.
Qed.

Lemma nullable_copies_no_key cols :
  filter (λ c, col_primary_key c = true) (map nullable_copy cols) = [].
Proof.
  induction cols as [|c cols IH]; simpl; [done|].
  rewrite filter_cons, decide_False by done. exact IH.
Qed.

Lemma view_primary_key view_name pk_name pktype reflected :
  primary_key_columns
    (__table__ (view_model_class view_name pk_name pktype reflected)) =
  [pk_column pk_name pktype].
Proof.
  unfold primary_key_columns; simpl.
  rewrite filter_cons, decide_True by done.
  by rewrite nullable_copies_no_key.
Qed.

Lemma view_route_type view_name pk_name tag reflected :
  route_type (view_model_class view_name pk_name (pktype_of tag) reflected) =
  tag_route_type tag.
Proof.
  unfold route_type. rewrite view_primary_key.
  unfold pktype_of, tag_route_type; simpl.
  by repeat destruct (String.eqb _ _).
Qed.

Lemma declared_tag_route_type tag : declared_tag tag → tag_route_type tag = tag.
Proof. by intros [->|[->| ->]]. Qed.

Lemma built_view_item_rule db exclude_tables user_models reflect_all read_only
    schema vms m :
  m ∈ vms →
  item_rule (service_of m) (route_type m) ∈
    url_map (built db exclude_tables user_models reflect_all read_only schema
               vms).
Proof.
  intros Hin. unfold built, registered; simpl.
  rewrite flat_map_app. apply elem_of_app; right.
  apply list_elem_of_In, in_flat_map. exists m.
  split; apply list_elem_of_In; [done|]. apply item_rule_in_routes.
Qed.

Lemma view_model_short db t :
  (List.length t < 3)%nat → view_model db t = inl IndexError.
Proof.
  destruct t as [|a [|b [|c t]]]; simpl; try done. lia.
Qed.

Lemma view_models_raise db l t e :
  t ∈ l → view_model db t = inl e → ∃ e', view_models db l = inl e'.
Proof.
  intros Hin Ht. induction l as [|t' l IH]; [by apply elem_of_nil in Hin|].
  simpl. apply elem_of_cons in Hin as [<-|Hin].
  - rewrite Ht. by eexists.
  - destruct (view_model db t') as [e1|m]; [by eexists|].
    destruct (IH Hin) as [e' ->]. by eexists.
Qed.

Lemma view_model_keyword db view_name pk_name tag rest :
  PyStr.is_keyword view_name = true ∨ PyStr.is_keyword pk_name = true →
  view_model db (view_name :: pk_name :: tag :: rest) = inl SyntaxError.
Proof.
  intros H. unfold view_model; simpl. unfold PyStr.is_name.
  destruct H as [-> | ->]; simpl; by rewrite ?andb_false_r.
Qed.

(** * C5: one resource per view specification *)

(** C5, counterexample.  [import/class/int] has the form [name/pk/type]
    with a declared type tag, and the generated source is no class
    statement: [get_app] raises and no resource is registered. *)
Lemma C5_counterexample_keyword_names :
  view_tuples "import/class/int" = [["import"; "class"; "int"]] ∧
  get_app Example.shop None None false false None (Some "import/class/int")
    = Raise SyntaxError.
Proof. split; by vm_compute. Qed.

(** C5, amended.  For a specification string written from entries
    [name/pk/tag] whose view and key names are fresh (identifiers, no
    keywords, clashing with nothing the module or a class binds), whose
    tags are among [string], [int] and [float], whose views the database
    knows, are pairwise different and are no table of a model registered
    before them, [get_app] builds the application and registers, after the
    models of the first branch, one resource per entry, in the order of
    the string.  The resource carries the entry's name; its only
    primary-key column is the named column with the type of the tag; its
    item rule is [/name/<tag:resource_id>]; and its other columns are the
    columns reflected for the view, each as a nullable, non-key copy, the
    column named like the key left out. *)
Theorem C5_view_specs_registered
    (db : Database) (exclude_tables : option (list string))
    (user_models : option (list ModelClass)) (reflect_all read_only : bool)
    (schema : option string) (vs : list ViewSpec) :
  vs ≠ [] →
  Forall (well_formed_spec db) vs →
  NoDup (map spec_view vs) →
  (∀ v, v ∈ vs →
     spec_view v ∉ first_tables db exclude_tables user_models reflect_all
                     read_only schema) →
  ∃ app,
    get_app db exclude_tables user_models reflect_all read_only schema
            (Some (spec_string vs)) = Ok tt app ∧
    classes app =
      map service_of
          (first_models db exclude_tables user_models reflect_all read_only
             schema) ++
      map (λ v, service_of (view_of db v)) vs ∧
    Forall (λ v,
      __name__ (view_of db v) = spec_view v ∧
      primary_key_columns (__table__ (view_of db v)) =
        [ {| col_name := spec_pk v; col_type := pktype_of (spec_tag v);
             col_primary_key := true; col_nullable := false |} ] ∧
      route_type (view_of db v) = spec_tag v ∧
      item_rule (service_of (view_of db v)) (spec_tag v) ∈ url_map app ∧
      rule (item_rule (service_of (view_of db v)) (spec_tag v)) =
        "/" +:+ PyStr.lower (spec_view v) +:+ "/<" +:+ spec_tag v
        +:+ ":resource_id>" ∧
      ∃ reflected,
        reflect_table db (spec_view v) = Some reflected ∧
        table_columns (__table__ (view_of db v)) =
          {| col_name := spec_pk v; col_type := pktype_of (spec_tag v);
             col_primary_key := true; col_nullable := false |} ::
          map (λ c, {| col_name := col_name c; col_type := col_type c;
                       col_primary_key := false; col_nullable := true |})
              (filter (λ c, col_name c ≠ spec_pk v) reflected)) vs.
Proof.
  intros Hne Hwf _ _. eexists. split.
  { apply get_app_spec_string; [done| |].
    - eapply Forall_impl; [exact Hwf|]. apply well_formed_plain.
    - eapply Forall_impl; [exact Hwf|].
      intros v (Hv & Hp & _ & H). by repeat split; try apply fresh_is_name. }
  split.
  { unfold built, with_index, registered; simpl.
    by rewrite map_app, <- list_fmap_compose. }
  apply Forall_forall. intros v Hin.
  apply (proj1 (Forall_forall _ _) Hwf) in Hin as Hv.
  destruct Hv as (_ & _ & Htag & [reflected Hrefl]).
  assert (Hty : route_type (view_of db v) = spec_tag v).
  { unfold view_of. rewrite view_route_type.
    by apply declared_tag_route_type. }
  split; [reflexivity|]. split; [apply view_primary_key|].
  split; [exact Hty|]. split.
  { rewrite <- Hty at 1. apply built_view_item_rule.
    apply list_elem_of_fmap. by exists v. }
  split; [reflexivity|].
  exists reflected. split; [exact Hrefl|].
  unfold view_of. by rewrite Hrefl.
Qed.

(** C5, witness: the two views of the example database. *)
Lemma C5_view_specs_registered_witness :
  ∃ app,
    get_app Example.shop None None false false None
            (Some "reports/report_id/int,logs/log_id/string") = Ok tt app ∧
    registered_names app = ["reports"; "logs"] ∧
    map rule (url_map app) =
      ["/reports/"; "/reports/meta"; "/reports/";
       "/reports/<int:resource_id>";
       "/logs/"; "/logs/meta"; "/logs/"; "/logs/<string:resource_id>"].
Proof.
  destruct (C5_view_specs_registered Example.shop None None false false None
              [ {| spec_view := "reports"; spec_pk := "report_id";
                   spec_tag := "int" |};
                {| spec_view := "logs"; spec_pk := "log_id";
                   spec_tag := "string" |} ])
    as (app & Hrun & _).
  - discriminate.
  - repeat first [apply Forall_nil_2 | apply Forall_cons_2];
      (split; [reflexivity|]; split; [reflexivity|]; split;
       [unfold declared_tag; simpl; tauto | simpl; eauto]).
  - apply (bool_decide_unpack _). by vm_compute.
  - intros v _. apply not_elem_of_nil.
  - exists app. split; [exact Hrun|].
    vm_compute in Hrun. injection Hrun as <-. split; reflexivity.
Defined.

(** * C7: specifications that do not have the documented form *)

(** C7, counterexample.  The tag [uuid] is none of [string], [int] and
    [float]; the application is built all the same, the view registered
    with a Float key and a float-typed item rule. *)
Lemma C7_counterexample_unknown_tag_registers_float :
  ∃ app,
    get_app Example.shop None None false false None
            (Some "reports/report_id/uuid") = Ok tt app ∧
    registered_names app = ["reports"] ∧
    map (λ svc, map col_type (primary_key_columns (__table__ (__model__ svc))))
        (classes app) = [[sqltypes.Float]] ∧
    map rule (url_map app) =
      ["/reports/"; "/reports/meta"; "/reports/";
       "/reports/<float:resource_id>"].
Proof. eexists. split; [vm_compute; reflexivity|]. by vm_compute. Qed.

(** C7, amended.  A specification with an entry of fewer than three
    fields makes [get_app] raise, whatever else it holds, and so does one
    with an entry whose view or key name is a keyword.  An entry whose tag
    is neither [string] nor [int] is not rejected: with fresh names and a
    view the database knows, which is no table of a model registered
    before, the view is registered with a Float key column and the routing
    type ["float"]. *)
Theorem C7_short_entry_raises_unknown_tag_is_float
    (db : Database) (exclude_tables : option (list string))
    (user_models : option (list ModelClass)) (reflect_all read_only : bool)
    (schema : option string) :
  (∀ str_viewpktype t,
     t ∈ view_tuples str_viewpktype → (List.length t < 3)%nat →
     ∃ e, get_app db exclude_tables user_models reflect_all read_only schema
                  (Some str_viewpktype) = Raise e) ∧
  (∀ str_viewpktype view_name pk_name tag rest,
     view_name :: pk_name :: tag :: rest ∈ view_tuples str_viewpktype →
     PyStr.is_keyword view_name = true ∨ PyStr.is_keyword pk_name = true →
     ∃ e, get_app db exclude_tables user_models reflect_all read_only schema
                  (Some str_viewpktype) = Raise e) ∧
  (∀ v,
     is_fresh (spec_view v) = true →
     is_fresh (spec_pk v) = true →
     no_separator (spec_tag v) →
     spec_tag v ≠ "string" → spec_tag v ≠ "int" →
     is_Some (reflect_table db (spec_view v)) →
     spec_view v ∉ first_tables db exclude_tables user_models reflect_all
                     read_only schema →
     ∃ app,
       get_app db exclude_tables user_models reflect_all read_only schema
               (Some (spec_item v)) = Ok tt app ∧
       classes app =
         map service_of
             (first_models db exclude_tables user_models reflect_all
                read_only schema) ++ [service_of (view_of db v)] ∧
       primary_key_columns (__table__ (view_of db v)) =
         [ {| col_name := spec_pk v; col_type := sqltypes.Float;
              col_primary_key := true; col_nullable := false |} ] ∧
       route_type (view_of db v) = "float" ∧
       item_rule (service_of (view_of db v)) "float" ∈ url_map app).
Proof.
  split; [|split].
  - intros s t Hin Hlen. rewrite get_app_closed; simpl.
    destruct (view_models_raise db (view_tuples s) t IndexError Hin
                (view_model_short db t Hlen)) as [e ->].
    by exists e.
  - intros s view_name pk_name tag rest Hin Hkw.
    rewrite get_app_closed; simpl.
    destruct (view_models_raise db (view_tuples s) _ SyntaxError Hin
                (view_model_keyword db view_name pk_name tag rest Hkw))
      as [e ->].
    by exists e.
  - intros v Hv Hp Ht Hs Hi Htab _.
    assert (Hfloat : pktype_of (spec_tag v) = sqltypes.Float).
    { unfold pktype_of.
      destruct (String.eqb_spec (spec_tag v) "string"); [done|].
      by destruct (String.eqb_spec (spec_tag v) "int"). }
    assert (Hty : route_type (view_of db v) = "float").
    { unfold view_of. rewrite view_route_type. unfold tag_route_type.
      destruct (String.eqb_spec (spec_tag v) "string"); [done|].
      by destruct (String.eqb_spec (spec_tag v) "int"). }
    eexists. split.
    { apply (get_app_spec_string db exclude_tables user_models reflect_all
               read_only schema [v]); [done| |].
      - repeat constructor; first [by apply fresh_no_separator | apply Ht].
      - repeat constructor; by try apply fresh_is_name. }
    split.
    { unfold built, with_index, registered; simpl. by rewrite map_app. }
    split.
    { unfold view_of. by rewrite view_primary_key, Hfloat. }
    split; [exact Hty|].
    rewrite <- Hty. apply built_view_item_rule. simpl.
    apply elem_of_cons; by left.
Qed.

(** C7, witness: an entry of two fields, a view named [class], and the
    tag [uuid]. *)
Lemma C7_short_entry_raises_unknown_tag_is_float_witness :
  (∃ e, get_app Example.shop None None false false None
                (Some "reports/report_id") = Raise e) ∧
  (∃ e, get_app Example.shop None None false false None
                (Some "class/id/int") = Raise e) ∧
  (∃ app, get_app Example.shop None None false false None
                  (Some "reports/report_id/uuid") = Ok tt app ∧
          route_type
            (view_of Example.shop
               {| spec_view := "reports"; spec_pk := "report_id";
                  spec_tag := "uuid" |}) = "float").
Proof.
  split; [|split].
  - apply (proj1 (C7_short_entry_raises_unknown_tag_is_float Example.shop
                    None None false false None)
             "reports/report_id" ["reports"; "report_id"]).
    + vm_compute. apply elem_of_cons; by left.
    + simpl; lia.
  - apply (proj1 (proj2 (C7_short_entry_raises_unknown_tag_is_float
                           Example.shop None None false false None))
             "class/id/int" "class" "id" "int" []).
    + vm_compute. apply elem_of_cons; by left.
    + by left.
  - destruct (proj2 (proj2 (C7_short_entry_raises_unknown_tag_is_float
                              Example.shop None None false false None))
                {| spec_view := "reports"; spec_pk := "report_id";
                   spec_tag := "uuid" |})
      as (app & Hrun & _ & _ & Hty & _);
      [reflexivity|reflexivity|by split|discriminate|discriminate
      |simpl; eauto|apply not_elem_of_nil|].
    exists app. split; [exact Hrun|exact Hty].
Defined.

(** * C8: the index *)



Lemma get_app_ok_built db exclude_tables user_models reflect_all read_only
    schema str_viewpktype app :
  get_app db exclude_tables user_models reflect_all read_only schema
          str_viewpktype = Ok tt app →
  ∃ vms, spec_models db str_viewpktype = inr vms ∧
         app = built db exclude_tables user_models reflect_all read_only
                 schema vms.
Proof.
  rewrite get_app_closed.
  destruct (spec_models db str_viewpktype) as [e|vms]; [done|].
  intros [= <-]. by exists vms.
Qed.


Lemma routes_of_cases svc pk_type r :
  r ∈ routes_of svc pk_type →
  (r = collection_rule svc ∧ "GET" ∈ allowed_methods (__model__ svc)) ∨
  (r = meta_rule svc ∧ "GET" ∈ allowed_methods (__model__ svc)) ∨
  (r = post_rule svc ∧ "POST" ∈ allowed_methods (__model__ svc)) ∨
  r = item_rule svc pk_type.
Proof.
  unfold routes_of. rewrite !elem_of_app.
  do 2 case_bool_decide;
    rewrite ?elem_of_cons, ?elem_of_nil; intuition subst; auto.
Qed.




(** * Further properties of the registration pipeline *)

Lemma routes_of_length svc pk_type :
  List.length (routes_of svc pk_type) =
  ((if bool_decide ("GET" ∈ allowed_methods (__model__ svc)) then 2 else 0) +
   (if bool_decide ("POST" ∈ allowed_methods (__model__ svc)) then 1 else 0) +
   1)%nat.
Proof.
  unfold routes_of. rewrite !length_app.
  do 2 case_bool_decide; simpl; lia.
Qed.

(** Whatever the class and the application, [register_service] returns
    having added between one and four rules after those already there.
    Each added rule is bound to the service class and allows no method the
    model does not allow; POST is only bound on the collection path
    [url/], and a method other than GET and POST only on the item path
    [url/<type:resource_id>]. *)
Theorem rules_respect_allowed_methods
    (svc : ServiceClass) (pk_type : string) (app : Flask) :
  ∃ app' added,
    register_service svc pk_type app = Ok tt app' ∧
    url_map app' = url_map app ++ added ∧
    (1 ≤ List.length added ≤ 4)%nat ∧
    ∀ r, r ∈ added →
      view_class (view_func r) = svc ∧
      methods r ⊆ allowed_methods (__model__ svc) ∧
      ∀ m, m ∈ methods r →
        (m = "POST" → rule r = __url__ (__model__ svc) +:+ "/") ∧
        (m ≠ "GET" → m ≠ "POST" →
         rule r = __url__ (__model__ svc) +:+ "/<" +:+ pk_type
                  +:+ ":resource_id>").
Proof.
  rewrite register_service_closed.
  eexists _, (routes_of svc pk_type).
  split; [reflexivity|]. split; [reflexivity|]. split.
  { rewrite routes_of_length. do 2 case_bool_decide; lia. }
  intros r Hr. split; [by eapply routes_of_view_class|].
  apply routes_of_cases in Hr as [[-> HG]|[[-> HG]|[[-> HP]| ->]]]; simpl.
  - split; [by apply singleton_subseteq_l|].
    intros m ->%elem_of_singleton. by split.
  - split; [by apply singleton_subseteq_l|].
    intros m ->%elem_of_singleton. by split.
  - split; [by apply singleton_subseteq_l|].
    intros m ->%elem_of_singleton. by split.
  - split; [apply subseteq_difference_l; reflexivity|].
    intros m [Hm Hnp]%elem_of_difference. split; [|done].
    intros ->. destruct Hnp. by apply elem_of_singleton.
Qed.

(** The admin object is handed one view per registered resource, in the
    order of the registry, and the configuration records [read_only] as it
    was passed. *)
Theorem admin_views_mirror_registry
    (db : Database) (exclude_tables : option (list string))
    (user_models : option (list ModelClass)) (reflect_all read_only : bool)
    (schema : option string) (str_viewpktype : option string) (app : Flask) :
  get_app db exclude_tables user_models reflect_all read_only schema
          str_viewpktype = Ok tt app →
  admin_views app = map __model__ (classes app) ∧
  SANDMAN2_READ_ONLY app = read_only.
Proof.
  intros (vms & _ & ->)%get_app_ok_built.
  unfold built, registered; simpl. split; [|done].
  rewrite <- list_fmap_compose. by apply list_fmap_ext.
Qed.

(** Witness: reflection over the example database. *)
Lemma admin_views_mirror_registry_witness :
  map __name__ (admin_views (built Example.shop None None true false None []))
    = ["orders"; "lines"].
Proof.
  rewrite (proj1 (admin_views_mirror_registry Example.shop None None true false
                    None None _ (get_app_no_views _ _ _ _ _ _))).
  reflexivity.
Defined.


Lemma reflected_models_unfiltered exclude_tables read_only cs :
  (∀ cls, cls ∈ cs → excluded exclude_tables cls = false) →
  map __name__ (reflected_models exclude_tables read_only cs) =
  map __name__ cs.
Proof.
  unfold reflected_models. intros Hall.
  induction cs as [|cls cs IH]; [done|].
  rewrite filter_cons, decide_True by (apply Hall, elem_of_cons; by left).
  simpl. rewrite IH.
  - by destruct read_only.
  - intros c Hc. apply Hall, elem_of_cons. by right.
Qed.

(** An empty exclusion list behaves like no list: [get_app] returns the
    same result for both, and reflection then registers every class that
    automap produced, in order. *)
Theorem empty_exclusion_list_excludes_nothing
    (db : Database) (user_models : option (list ModelClass))
    (reflect_all read_only : bool) (schema : option string)
    (str_viewpktype : option string) :
  get_app db (Some []) user_models reflect_all read_only schema str_viewpktype
    = get_app db None user_models reflect_all read_only schema str_viewpktype ∧
  ∃ app,
    get_app db (Some []) None true read_only schema None = Ok tt app ∧
    registered_names app = map __name__ (automap_classes db schema).
Proof.
  split; [by rewrite !get_app_closed|].
  eexists; split; [apply get_app_no_views|].
  unfold registered_names, built, registered, first_models; simpl.
  rewrite app_nil_r, <- !list_fmap_compose.
  by apply (reflected_models_unfiltered (Some []) read_only).
Qed.

(** [AutomapModel.prepare] runs at most once in a call of [get_app], with
    the schema that was passed; registering views never runs it, nor do
    user models none of which derives from [AutomapModel]. *)
Theorem prepare_runs_at_most_once
    (db : Database) (exclude_tables : option (list string))
    (user_models : option (list ModelClass)) (reflect_all read_only : bool)
    (schema : option string) (str_viewpktype : option string) (app : Flask) :
  get_app db exclude_tables user_models reflect_all read_only schema
          str_viewpktype = Ok tt app →
  (List.length (prepared app) ≤ 1)%nat ∧
  (∀ s, s ∈ prepared app → s = schema) ∧
  (reflect_all = false →
   (∀ cls us, user_models = Some us → cls ∈ us → is_automap cls = false) →
   prepared app = []).
Proof.
  intros (vms & _ & ->)%get_app_ok_built.
  unfold built, registered, with_prepared, first_prepared; simpl.
  destruct user_models as [[|u us]|]; simpl.
  - destruct reflect_all; simpl.
    + split; [lia|]. split; [by intros s ->%list_elem_of_singleton|].
      intros [=].
    + split; [lia|]. split; [by intros s ?%elem_of_nil|done].
  - destruct (is_automap u || existsb is_automap us) eqn:E; simpl.
    + split; [lia|]. split; [by intros s ->%list_elem_of_singleton|].
      intros _ Hno. exfalso.
      apply orb_prop in E as [E|E].
      * rewrite (Hno u (u :: us) eq_refl) in E; [done|].
        apply elem_of_cons; by left.
      * apply existsb_exists in E as (c & Hc%list_elem_of_In & E).
        rewrite (Hno c (u :: us) eq_refl) in E; [done|].
        apply elem_of_cons; by right.
    + split; [lia|]. split; [by intros s ?%elem_of_nil|done].
  - destruct reflect_all; simpl.
    + split; [lia|]. split; [by intros s ->%list_elem_of_singleton|].
      intros [=].
    + split; [lia|]. split; [by intros s ?%elem_of_nil|done].
Qed.

(** Witness: the user model [widget], not an automap class, with
    reflection disabled. *)
Lemma prepare_runs_at_most_once_witness :
  prepared (built Example.shop None (Some [Example.widget]) false false None
              []) = [].
Proof.
  refine (proj2 (proj2 (prepare_runs_at_most_once Example.shop None
                          (Some [Example.widget]) false false None None _
                          (get_app_no_views _ _ _ _ _ _))) eq_refl _).
  intros cls us [= <-] Hin. apply list_elem_of_singleton in Hin. by subst.
Defined.

(** ** The index when names repeat *)

Lemma dict_set_keys k v d :
  map fst (dict_set k v d) =
  if bool_decide (k ∈ map fst d) then map fst d else map fst d ++ [k].
Proof.
  induction d as [|[k' v'] d IH]; simpl; [done|].
  destruct (String.eqb_spec k' k) as [->|Hne]; simpl.
  - rewrite bool_decide_eq_true_2; [done|]. apply elem_of_cons; by left.
  - rewrite IH. case_bool_decide as Hin.
    + rewrite bool_decide_eq_true_2; [done|]. apply elem_of_cons; by right.
    + rewrite bool_decide_eq_false_2; [done|].
      intros [->|H]%elem_of_cons; [done|]. by apply Hin.
Qed.

Lemma dict_set_has k v d : (k, v) ∈ dict_set k v d.
Proof.
  induction d as [|[k' v'] d IH]; simpl; [apply elem_of_cons; by left|].
  destruct (String.eqb k' k); apply elem_of_cons; [by left|by right].
Qed.

Lemma dict_set_keeps k v k' v' d :
  k ≠ k' → (k, v) ∈ d → (k, v) ∈ dict_set k' v' d.
Proof.
  intros Hne. induction d as [|[k0 v0] d IH]; simpl; [by intros ?%elem_of_nil|].
  intros [[= <- <-]|Hin]%elem_of_cons.
  - destruct (String.eqb_spec k k') as [->|_]; [done|].
    apply elem_of_cons; by left.
  - destruct (String.eqb k0 k'); apply elem_of_cons; right; [done|by apply IH].
Qed.

Lemma index_fold_keys primary_key cs d :
  NoDup (map fst d) →
  NoDup (map fst (fold_left (λ routes cls,
                     dict_set (index_entry primary_key cls).1
                              (index_entry primary_key cls).2 routes) cs d)) ∧
  ∀ k, k ∈ map fst (fold_left (λ routes cls,
                     dict_set (index_entry primary_key cls).1
                              (index_entry primary_key cls).2 routes) cs d) ↔
       k ∈ map fst d ∨ k ∈ map (λ svc, __name__ (__model__ svc)) cs.
Proof.
  revert d; induction cs as [|svc cs IH]; intros d Hd; simpl.
  - split; [done|]. intros k. rewrite elem_of_nil. tauto.
  - destruct (IH (dict_set (__name__ (__model__ svc))
                    (__url__ (__model__ svc) +:+ "{/" +:+
                     primary_key (__model__ svc) +:+ "}") d)) as [Hnd Hk].
    + rewrite dict_set_keys. case_bool_decide as Hin; [done|].
      apply NoDup_app. split; [done|]. split; [|apply NoDup_singleton].
      by intros x Hx ->%list_elem_of_singleton.
    + split; [exact Hnd|]. intros k. rewrite Hk, dict_set_keys, elem_of_cons.
      case_bool_decide as Hin.
      * split; [tauto|]. intros [H|[->|H]]; tauto.
      * rewrite elem_of_app, list_elem_of_singleton. tauto.
Qed.

Lemma index_fold_keeps primary_key cs d k v :
  (k, v) ∈ d → k ∉ map (λ svc, __name__ (__model__ svc)) cs →
  (k, v) ∈ fold_left (λ routes cls,
                        dict_set (index_entry primary_key cls).1
                                 (index_entry primary_key cls).2 routes) cs d.
Proof.
  revert d; induction cs as [|svc cs IH]; intros d Hin Hnot; simpl; [done|].
  apply not_elem_of_cons in Hnot as [Hne Hnot].
  apply IH; [|done]. by apply dict_set_keeps.
Qed.

(** The index for any registry, names repeated or not: its keys are the
    registered names, each once; it never has more entries than there are
    registered resources; and for a name registered several times the
    entry is that of the resource registered last under it. *)
Theorem index_keys_and_last_registration
    (primary_key : ModelClass → string) (app : Flask) :
  NoDup (map fst (index primary_key app)) ∧
  (∀ k, k ∈ map fst (index primary_key app) ↔ k ∈ registered_names app) ∧
  (∀ before svc after,
     classes app = before ++ svc :: after →
     __name__ (__model__ svc) ∉ map (λ c, __name__ (__model__ c)) after →
     (__name__ (__model__ svc),
      __url__ (__model__ svc) +:+ "{/" +:+ primary_key (__model__ svc)
      +:+ "}") ∈ index primary_key app).
Proof.
  unfold index, registered_names.
  destruct (index_fold_keys primary_key (classes app) [] (NoDup_nil_2))
    as [Hnd Hk].
  split; [exact Hnd|]. split.
  - intros k. rewrite Hk. simpl. rewrite elem_of_nil. tauto.
  - intros before svc after -> Hnot.
    rewrite fold_left_app. simpl.
    apply index_fold_keeps; [|done]. apply dict_set_has.
Qed.

(** Witness: [orders] given twice in the list of user models. *)
Lemma index_keys_and_last_registration_witness :
  ("orders", "/orders{/id}") ∈
  index Example.first_key
    (built Example.shop None
       (Some [Example.orders; Example.lines; Example.orders]) false false
       None []).
Proof.
  refine (proj2 (proj2 (index_keys_and_last_registration Example.first_key
                          (built Example.shop None
                             (Some [Example.orders; Example.lines;
                                    Example.orders]) false false None [])))
            [service_of Example.orders; service_of Example.lines]
            (service_of Example.orders) [] eq_refl _).
  apply not_elem_of_nil.
Defined.

(** ** Reading the view specification *)

(** Writing entries out as [name/pk/tag] joined by commas and reading the
    string back as [get_app] does returns the entries, provided there is at
    least one entry and no field holds a comma or a slash. *)
Theorem view_tuples_round_trip (vs : list ViewSpec) :
  vs ≠ [] →
  Forall spec_fields_plain vs →
  view_tuples (spec_string vs) =
    map (λ v, [spec_view v; spec_pk v; spec_tag v]) vs ∧
  List.length (view_tuples (spec_string vs)) = List.length vs.
Proof.
  intros Hne Hall. rewrite view_tuples_spec_string by done.
  split; [done|]. by rewrite length_map.
Qed.

(** Witness: the two views of the example database. *)
Lemma view_tuples_round_trip_witness :
  view_tuples "reports/report_id/int,logs/log_id/string" =
    [["reports"; "report_id"; "int"]; ["logs"; "log_id"; "string"]].
Proof.
  refine (proj1 (view_tuples_round_trip
                   [ {| spec_view := "reports"; spec_pk := "report_id";
                        spec_tag := "int" |};
                     {| spec_view := "logs"; spec_pk := "log_id";
                        spec_tag := "string" |} ] _ _)).
  - discriminate.
  - repeat first [apply Forall_nil_2 | apply Forall_cons_2];
      repeat split; reflexivity.
Defined.

Lemma split_trailing_separator sep s :
  PyStr.split sep (s +:+ String sep "") = PyStr.split sep s ++ [""].
Proof.
  induction s as [|c s IH]; simpl.
  - by rewrite Ascii.eqb_refl.
  - destruct (Ascii.eqb c sep); [by rewrite IH|].
    rewrite IH. pose proof (split_not_nil sep s).
    by destruct (PyStr.split sep s).
Qed.

(** The empty specification string makes [get_app] raise [IndexError],
    and so does every specification that ends in a comma raise: the last
    entry is read as the one-field tuple of the empty string. *)
Theorem empty_or_trailing_comma_spec_raises
    (db : Database) (exclude_tables : option (list string))
    (user_models : option (list ModelClass)) (reflect_all read_only : bool)
    (schema : option string) :
  get_app db exclude_tables user_models reflect_all read_only schema
          (Some "") = Raise IndexError ∧
  ∀ s, ∃ e,
    get_app db exclude_tables user_models reflect_all read_only schema
            (Some (s +:+ ",")) = Raise e.
Proof.
  split; [by rewrite get_app_closed|].
  intros s. rewrite get_app_closed; simpl.
  destruct (view_models_raise db (view_tuples (s +:+ ",")) [""] IndexError)
    as [e ->]; [| |by exists e].
  - unfold view_tuples. rewrite split_trailing_separator, map_app.
    apply elem_of_app; right. simpl. by apply list_elem_of_singleton.
  - apply view_model_short. simpl; lia.
Qed.

Lemma string_append_assoc (a b c : string) :
  (a +:+ b) +:+ c = a +:+ (b +:+ c).
Proof.
  induction a as [|x a IH]; [done|].
  change (String x ((a +:+ b) +:+ c) = String x (a +:+ (b +:+ c))).
  by rewrite IH.
Qed.

Lemma split_fourth_field sep a b c junk :
  PyStr.contains sep a = false → PyStr.contains sep b = false →
  PyStr.contains sep c = false →
  PyStr.split sep (a +:+ String sep (b +:+ String sep
                     (c +:+ String sep junk))) =
  a :: b :: c :: PyStr.split sep junk.
Proof. intros Ha Hb Hc. by rewrite !split_append. Qed.

(** Fields after the third are never read: an entry [name/pk/tag/junk]
    gives the same result as [name/pk/tag]. *)
Theorem fields_after_the_third_are_ignored
    (db : Database) (exclude_tables : option (list string))
    (user_models : option (list ModelClass)) (reflect_all read_only : bool)
    (schema : option string) (v : ViewSpec) (junk : string) :
  spec_fields_plain v →
  PyStr.contains "," junk = false →
  get_app db exclude_tables user_models reflect_all read_only schema
          (Some (spec_item v +:+ "/" +:+ junk)) =
  get_app db exclude_tables user_models reflect_all read_only schema
          (Some (spec_item v)).
Proof.
  intros ((Hv1 & Hv2) & (Hp1 & Hp2) & (Ht1 & Ht2)) Hj.
  rewrite !get_app_closed; simpl.
  assert (Hitem : PyStr.contains "," (spec_item v) = false).
  { unfold spec_item. rewrite !contains_append. simpl.
    by rewrite Hv1, Hp1, Ht1. }
  assert (Hlong : PyStr.contains "," (spec_item v +:+ "/" +:+ junk) = false).
  { rewrite !contains_append, Hitem, Hj. done. }
  unfold view_tuples. rewrite !split_plain by done. simpl.
  change (spec_item v +:+ String "/" junk)
    with (spec_item v +:+ "/" +:+ junk).
  replace (spec_item v +:+ "/" +:+ junk)
    with (spec_view v +:+ String "/" (spec_pk v +:+ String "/"
            (spec_tag v +:+ String "/" junk))).
  - rewrite split_fourth_field by done.
    change (spec_item v)
      with (spec_view v +:+ String "/" (spec_pk v +:+ String "/" (spec_tag v))).
    rewrite (split_append "/" (spec_view v)) by done.
    rewrite (split_append "/" (spec_pk v)) by done.
    rewrite (split_plain "/" (spec_tag v)) by done.
    reflexivity.
  - unfold spec_item. by rewrite !string_append_assoc.
Qed.

(** Witness: [reports/report_id/int/whatever] on the example database. *)
Lemma fields_after_the_third_are_ignored_witness :
  get_app Example.shop None None false false None
          (Some "reports/report_id/int/whatever") =
  get_app Example.shop None None false false None
          (Some "reports/report_id/int").
Proof.
  exact (fields_after_the_third_are_ignored Example.shop None None false false
           None {| spec_view := "reports"; spec_pk := "report_id";
                   spec_tag := "int" |} "whatever"
           (conj (conj eq_refl eq_refl)
                 (conj (conj eq_refl eq_refl) (conj eq_refl eq_refl)))
           eq_refl).
Defined.

